(** * QGISProjectManager: the layer registry and query facade

  A shallow embedding of [examples/qgis_example.py].  The facade class
  [QGISProjectManager] is a thin layer over the PyQGIS toolkit: every
  method resolves a layer by name, checks its type code, and forwards one
  call to the toolkit inside a [try ... except Exception] block.

  The toolkit itself (QgsProject, QgsVectorLayer, QgsFeature, the OGR
  writer) is not part of the repository.  It is modelled here by a small
  executable world: a store of layer objects addressed by reference, the
  project's layer map, the data sources the providers can open, and the
  writer.  Toolkit calls are computations in a state-and-exception monad,
  so that a fault raised by the toolkit and its capture by the facade are
  both explicit.

  Embedded are the methods the properties below are about: the two
  [add_*_layer] methods, [list_layers], [get_layer_by_name],
  [remove_layer], the feature, attribute, filter and selection methods,
  [get_layer_crs] and [export_vector_layer]; and, further down, the
  constructor, [load_project], [save_project] and [set_layer_visibility].
  [get_layer_extent], whose result is four floating-point coordinates, the
  application bootstrap of [example_usage] and printing to standard output
  are left out. *)

From Stdlib Require Import ZArith Ascii String.
From stdpp Require Import base list strings pretty gmap.

Open Scope string_scope.
Open Scope Z_scope.

(** ** Python's [os.path] (POSIX flavour) on strings *)

Module os_path.

(** [s[i:]] and [s[:i]] for an index [0 <= i]. *)
Fixpoint drop (i : nat) (s : string) : string :=
  match i, s with
  | O, _ => s
  | S _, EmptyString => EmptyString
  | S j, String _ rest => drop j rest
  end.

Fixpoint take (i : nat) (s : string) : string :=
  match i, s with
  | O, _ => EmptyString
  | S _, EmptyString => EmptyString
  | S j, String c rest => String c (take j rest)
  end.

(** [s.rfind(c)]: the highest index at which [c] occurs, [-1] if none.
    [i] is the index of the head of [s], [last] the answer so far. *)
Fixpoint rfind_from (c : ascii) (s : string) (i last : Z) : Z :=
  match s with
  | EmptyString => last
  | String x rest =>
      rfind_from c rest (i + 1) (if Ascii.eqb x c then i else last)
  end.

Definition rfind (c : ascii) (s : string) : Z := rfind_from c s 0 (-1).

Definition sep : ascii := "/"%char.
Definition extsep : ascii := "."%char.

(** posixpath.basename: [i = p.rfind('/') + 1; return p[i:]]. *)
Definition basename (p : string) : string :=
  let i := rfind sep p + 1 in
  drop (Z.to_nat i) p.

(** The [while filenameIndex < dotIndex] loop of genericpath._splitext:
    [true] as soon as a character other than the dot is met before
    [dotIndex].  [fuel] is [dotIndex - filenameIndex]. *)
Fixpoint has_stem (p : string) (filenameIndex : nat) (fuel : nat) : bool :=
  match fuel with
  | O => false
  | S fuel' =>
      match String.get filenameIndex p with
      | Some c =>
          if Ascii.eqb c extsep then has_stem p (S filenameIndex) fuel'
          else true
      | None => true
      end
  end.

(** posixpath.splitext, through genericpath._splitext(p, '/', None, '.'). *)
Definition splitext (p : string) : string * string :=
  let sepIndex := rfind sep p in
  let dotIndex := rfind extsep p in
  if dotIndex >? sepIndex then
    let filenameIndex := sepIndex + 1 in
    if has_stem p (Z.to_nat filenameIndex) (Z.to_nat (dotIndex - filenameIndex))
    then (take (Z.to_nat dotIndex) p, drop (Z.to_nat dotIndex) p)
    else (p, EmptyString)
  else (p, EmptyString).

(** [c in s], and whether [s] is made of dots only. *)
Fixpoint occurs (c : ascii) (s : string) : bool :=
  match s with
  | EmptyString => false
  | String x rest => Ascii.eqb x c || occurs c rest
  end.

Fixpoint all_dots (s : string) : bool :=
  match s with
  | EmptyString => true
  | String x rest => Ascii.eqb x extsep && all_dots rest
  end.

End os_path.

(** ** Outcomes of a Python call *)

Inductive Exception : Type :=
| RuntimeError (msg : string)
| AttributeError (msg : string)
| KeyError (key : string).

Inductive outcome (A : Type) : Type :=
| Ok (a : A)
| Raised (e : Exception).
Arguments Ok {A} a.
Arguments Raised {A} e.

(** References to layer objects of the toolkit. *)
Definition ref : Type := nat.

Section Facade.

(** Attribute values are whatever the toolkit stores in a field; [py_eq]
    is Python's [==] on them.  Nothing is assumed of it. *)
Context {Value : Type} (py_eq : Value -> Value -> bool).

(** *** The toolkit's data *)

Record QgsCoordinateReferenceSystem : Type := mkCrs {
  crs_authid : string;
  crs_bool : bool   (* truth value of the object *)
}.

Record QgsField : Type := mkField { field_name : string }.

Record QgsFeature : Type := mkFeature {
  feature_id : Z;
  feature_attributes : list (string * Value)
}.

(** A map layer.  [l_type] is the code returned by [layer.type()]:
    0 for a vector layer, 1 for a raster layer. *)
Record Layer : Type := mkLayer {
  l_id : string;
  l_name : string;
  l_type : Z;
  l_isValid : bool;
  l_crs : QgsCoordinateReferenceSystem;
  l_fields : list QgsField;
  l_features : list QgsFeature;
  l_selectedFeatureIds : gset Z
}.

Definition VectorLayer : Z := 0.
Definition RasterLayer : Z := 1.

(** What [QgsVectorFileWriter.writeAsVectorFormat] hands back to Python:
    the bare error code, as the QGIS 2 binding does, or the pair of the
    error code and a message, as the QGIS 3 binding does. *)
Inductive WriterResult : Type :=
  | WriterError (code : Z)
  | WriterErrorAndMessage (code : Z) (message : string).

(** What a provider finds at a path. *)
Inductive DataSource : Type :=
  | VectorData (crs : QgsCoordinateReferenceSystem)
               (fields : list QgsField) (features : list QgsFeature)
  | RasterData (crs : QgsCoordinateReferenceSystem).

(** The world the facade runs in.
    - [project]: the layer map of [QgsProject.instance()], layer id to
      layer object, in iteration order; [None] once the project object
      has been destroyed by the application.
    - [heap]: the layer objects; [None] marks an object the toolkit has
      deleted.
    - [provider]: the data source a provider library opens at a path.
    - [writer]: what [QgsVectorFileWriter.writeAsVectorFormat] returns,
      or raises, for a layer, an output path and a driver name. *)
Record World : Type := mkWorld {
  project : option (list (string * ref));
  heap : list (option Layer);
  provider : string -> string -> option DataSource;
  writer : Layer -> string -> string -> outcome WriterResult
}.

(** *** The state-and-exception monad *)

Definition M (A : Type) : Type := World -> outcome A * World.

Definition ret {A} (a : A) : M A := fun w => (Ok a, w).
Definition raise {A} (e : Exception) : M A := fun w => (Raised e, w).
Definition bind {A B} (c : M A) (k : A -> M B) : M B :=
  fun w =>
    match c w with
    | (Ok a, w') => k a w'
    | (Raised e, w') => (Raised e, w')
    end.

(** [try: body except Exception as e: handler]. *)
Definition try_except {A} (body : M A) (handler : Exception -> M A) : M A :=
  fun w =>
    match body w with
    | (Ok a, w') => (Ok a, w')
    | (Raised e, w') => handler e w'
    end.

Notation "'let*' x ':=' c 'in' k" := (bind c (fun x => k))
  (at level 10, x name, c at level 100, k at level 200).

(** *** The toolkit's methods *)

Definition deleted (what : string) : Exception :=
  RuntimeError ("wrapped C/C++ object of type " +:+ what +:+ " has been deleted").

Definition deref (layer : ref) : M Layer :=
  fun w =>
    match heap w !! layer with
    | Some (Some l) => (Ok l, w)
    | _ => (Raised (deleted "QgsMapLayer"), w)
    end.

Definition store (layer : ref) (l : Layer) : M unit :=
  fun w =>
    (Ok tt, mkWorld (project w) (<[layer := Some l]> (heap w))
                    (provider w) (writer w)).

Definition QgsMapLayer_id (layer : ref) : M string :=
  let* l := deref layer in ret (l_id l).
Definition QgsMapLayer_name (layer : ref) : M string :=
  let* l := deref layer in ret (l_name l).
Definition QgsMapLayer_type (layer : ref) : M Z :=
  let* l := deref layer in ret (l_type l).
Definition QgsMapLayer_isValid (layer : ref) : M bool :=
  let* l := deref layer in ret (l_isValid l).
Definition QgsMapLayer_crs (layer : ref) : M QgsCoordinateReferenceSystem :=
  let* l := deref layer in ret (l_crs l).

(** The vector-only methods do not exist on other layer classes. *)
Definition vector_only (name : string) (layer : ref) : M Layer :=
  let* l := deref layer in
  if l_type l =? VectorLayer then ret l else raise (AttributeError name).

Definition QgsVectorLayer_fields (layer : ref) : M (list QgsField) :=
  let* l := vector_only "fields" layer in ret (l_fields l).
Definition QgsVectorLayer_getFeatures (layer : ref) : M (list QgsFeature) :=
  let* l := vector_only "getFeatures" layer in ret (l_features l).

Definition set_selection (ids : gset Z) (l : Layer) : Layer :=
  mkLayer (l_id l) (l_name l) (l_type l) (l_isValid l) (l_crs l)
          (l_fields l) (l_features l) ids.

Definition QgsVectorLayer_selectByIds (layer : ref) (ids : list Z) : M unit :=
  let* l := vector_only "selectByIds" layer in
  store layer (set_selection (list_to_set ids) l).
Definition QgsVectorLayer_removeSelection (layer : ref) : M unit :=
  let* l := vector_only "removeSelection" layer in
  store layer (set_selection ∅ l).

(** [feature.attribute(name)] raises KeyError for an unknown field. *)
Fixpoint lookup_attribute (name : string) (attrs : list (string * Value))
  : option Value :=
  match attrs with
  | [] => None
  | (k, v) :: rest =>
      if String.eqb k name then Some v else lookup_attribute name rest
  end.

Definition QgsFeature_attribute (feature : QgsFeature) (name : string) : M Value :=
  match lookup_attribute name (feature_attributes feature) with
  | Some v => ret v
  | None => raise (KeyError name)
  end.

Definition QgsProject_mapLayers : M (list (string * ref)) :=
  fun w =>
    match project w with
    | Some m => (Ok m, w)
    | None => (Raised (deleted "QgsProject"), w)
    end.

Definition has_key (key : string) (m : list (string * ref)) : bool :=
  existsb (fun e => String.eqb (fst e) key) m.

(** [addMapLayer]: the layer is entered under its own id, unless a layer
    with that id is registered already. *)
Definition QgsProject_addMapLayer (layer : ref) : M unit :=
  let* m := QgsProject_mapLayers in
  let* l := deref layer in
  fun w =>
    if has_key (l_id l) m then (Ok tt, w)
    else (Ok tt, mkWorld (Some (m ++ [(l_id l, layer)])%list) (heap w)
                         (provider w) (writer w)).

(** [removeMapLayer(id)]: the entry is dropped from the map and the layer
    object is deleted; an unknown id is ignored. *)
Definition delete_objects (refs : list ref) (h : list (option Layer))
  : list (option Layer) :=
  foldr (fun a h' => <[a := None]> h') h refs.

Definition QgsProject_removeMapLayer (layer_id : string) : M unit :=
  let* m := QgsProject_mapLayers in
  fun w =>
    let gone := List.filter (fun e => String.eqb (fst e) layer_id) m in
    let kept := List.filter (fun e => negb (String.eqb (fst e) layer_id)) m in
    (Ok tt, mkWorld (Some kept) (delete_objects (map snd gone) (heap w))
                    (provider w) (writer w)).

(** Construction allocates a new layer object.  Its id is the name
    followed by a tag unique to the object. *)
Definition alloc (l : Layer) : M ref :=
  fun w =>
    (Ok (length (heap w)),
     mkWorld (project w) (heap w ++ [Some l])%list (provider w) (writer w)).

Definition invalid_crs : QgsCoordinateReferenceSystem := mkCrs "" true.

Definition new_id (baseName : string) : M string :=
  fun w => (Ok (baseName +:+ "_" +:+ pretty (length (heap w))), w).

Definition QgsVectorLayer (path baseName providerLib : string) : M ref :=
  let* i := new_id baseName in
  fun w =>
    match provider w providerLib path with
    | Some (VectorData c fs feats) =>
        alloc (mkLayer i baseName VectorLayer true c fs feats ∅) w
    | _ =>
        alloc (mkLayer i baseName VectorLayer false invalid_crs [] [] ∅) w
    end.

Definition QgsRasterLayer (path baseName : string) : M ref :=
  let* i := new_id baseName in
  fun w =>
    match provider w "gdal" path with
    | Some (RasterData c) =>
        alloc (mkLayer i baseName RasterLayer true c [] [] ∅) w
    | _ =>
        alloc (mkLayer i baseName RasterLayer false invalid_crs [] [] ∅) w
    end.

Definition NoError : Z := 0.

(** [error == QgsVectorFileWriter.NoError]: the enum value equals a bare
    code with the same number, and never equals a tuple. *)
Definition equals_NoError (error : WriterResult) : bool :=
  match error with
  | WriterError code => code =? NoError
  | WriterErrorAndMessage _ _ => false
  end.

Definition QgsVectorFileWriter_writeAsVectorFormat
    (layer : ref) (fileName fileEncoding : string)
    (destCRS : QgsCoordinateReferenceSystem) (driverName : string)
  : M WriterResult :=
  let* l := deref layer in
  fun w => (writer w l fileName driverName, w).

(** *** QGISProjectManager

    [self.project] is the project of the world.  A layer object is always
    true in a condition; an absent layer is [None]. *)

(** [layer_name or os.path.splitext(os.path.basename(file_path))[0]] *)
Definition name_or_stem (layer_name : option string) (file_path : string)
  : string :=
  match layer_name with
  | Some (String c s) => String c s
  | _ => fst (os_path.splitext (os_path.basename file_path))
  end.

Definition add_vector_layer (file_path : string) (layer_name : option string)
  : M (option ref) :=
  try_except
    (let name := name_or_stem layer_name file_path in
     let* layer := QgsVectorLayer file_path name "ogr" in
     let* valid := QgsMapLayer_isValid layer in
     if negb valid then ret None
     else
       let* _ := QgsProject_addMapLayer layer in
       ret (Some layer))
    (fun e => ret None).

Definition add_raster_layer (file_path : string) (layer_name : option string)
  : M (option ref) :=
  try_except
    (let name := name_or_stem layer_name file_path in
     let* layer := QgsRasterLayer file_path name in
     let* valid := QgsMapLayer_isValid layer in
     if negb valid then ret None
     else
       let* _ := QgsProject_addMapLayer layer in
       ret (Some layer))
    (fun e => ret None).

Record LayerInfo : Type := mkLayerInfo {
  info_id : string;
  info_name : string;
  info_type : Z;
  info_valid : bool;
  info_crs : string
}.

Fixpoint list_layers_loop (items : list (string * ref))
    (layers_info : list LayerInfo) : M (list LayerInfo) :=
  match items with
  | [] => ret layers_info
  | (layer_id, layer) :: rest =>
      let* n := QgsMapLayer_name layer in
      let* t := QgsMapLayer_type layer in
      let* v := QgsMapLayer_isValid layer in
      let* c := QgsMapLayer_crs layer in
      let* a := (if crs_bool c
                 then let* c' := QgsMapLayer_crs layer in ret (crs_authid c')
                 else ret "Unknown") in
      list_layers_loop rest
        (layers_info ++ [mkLayerInfo layer_id n t v a])%list
  end.

Definition list_layers : M (list LayerInfo) :=
  let* items := QgsProject_mapLayers in
  list_layers_loop items [].

Fixpoint get_layer_by_name_loop (layer_name : string) (values : list ref)
  : M (option ref) :=
  match values with
  | [] => ret None
  | layer :: rest =>
      let* n := QgsMapLayer_name layer in
      if String.eqb n layer_name then ret (Some layer)
      else get_layer_by_name_loop layer_name rest
  end.

Definition get_layer_by_name (layer_name : string) : M (option ref) :=
  let* m := QgsProject_mapLayers in
  get_layer_by_name_loop layer_name (map snd m).

Definition remove_layer (layer_name : string) : M bool :=
  try_except
    (let* layer := get_layer_by_name layer_name in
     match layer with
     | Some layer =>
         let* i := QgsMapLayer_id layer in
         let* _ := QgsProject_removeMapLayer i in
         ret true
     | None => ret false
     end)
    (fun e => ret false).

(** [limit and i >= limit] *)
Definition limit_reached (limit : option Z) (i : Z) : bool :=
  match limit with
  | None => false
  | Some n => if n =? 0 then false else i >=? n
  end.

Fixpoint get_layer_features_loop (limit : option Z) (i : Z)
    (iterator : list QgsFeature) (features : list QgsFeature)
  : list QgsFeature :=
  match iterator with
  | [] => features
  | feature :: rest =>
      if limit_reached limit i then features
      else get_layer_features_loop limit (i + 1) rest
             (features ++ [feature])%list
  end.

Definition get_layer_features (layer_name : string) (limit : option Z)
  : M (list QgsFeature) :=
  try_except
    (let* layer := get_layer_by_name layer_name in
     match layer with
     | None => ret []
     | Some layer =>
         let* t := QgsMapLayer_type layer in
         if negb (t =? 0) then ret []
         else
           let* iterator := QgsVectorLayer_getFeatures layer in
           ret (get_layer_features_loop limit 0 iterator [])
     end)
    (fun e => ret []).

Definition get_layer_attributes (layer_name : string) : M (list string) :=
  try_except
    (let* layer := get_layer_by_name layer_name in
     match layer with
     | None => ret []
     | Some layer =>
         let* t := QgsMapLayer_type layer in
         if negb (t =? 0) then ret []
         else
           let* fields := QgsVectorLayer_fields layer in
           ret (map field_name fields)
     end)
    (fun e => ret []).

Fixpoint filter_features_loop (attribute : string) (value : Value)
    (iterator : list QgsFeature) (matching_features : list QgsFeature)
  : M (list QgsFeature) :=
  match iterator with
  | [] => ret matching_features
  | feature :: rest =>
      let* v := QgsFeature_attribute feature attribute in
      if py_eq v value
      then filter_features_loop attribute value rest
             (matching_features ++ [feature])%list
      else filter_features_loop attribute value rest matching_features
  end.

Definition filter_features (layer_name attribute : string) (value : Value)
  : M (list QgsFeature) :=
  try_except
    (let* layer := get_layer_by_name layer_name in
     match layer with
     | None => ret []
     | Some layer =>
         let* t := QgsMapLayer_type layer in
         if negb (t =? 0) then ret []
         else
           let* iterator := QgsVectorLayer_getFeatures layer in
           filter_features_loop attribute value iterator []
     end)
    (fun e => ret []).

Definition select_features (layer_name : string) (feature_ids : list Z)
  : M bool :=
  try_except
    (let* layer := get_layer_by_name layer_name in
     match layer with
     | None => ret false
     | Some layer =>
         let* t := QgsMapLayer_type layer in
         if negb (t =? 0) then ret false
         else
           let* _ := QgsVectorLayer_selectByIds layer feature_ids in
           ret true
     end)
    (fun e => ret false).

Definition clear_selection (layer_name : string) : M bool :=
  try_except
    (let* layer := get_layer_by_name layer_name in
     match layer with
     | None => ret false
     | Some layer =>
         let* t := QgsMapLayer_type layer in
         if negb (t =? 0) then ret false
         else
           let* _ := QgsVectorLayer_removeSelection layer in
           ret true
     end)
    (fun e => ret false).

Definition get_layer_crs (layer_name : string) : M (option string) :=
  try_except
    (let* layer := get_layer_by_name layer_name in
     match layer with
     | None => ret None
     | Some layer =>
         let* c := QgsMapLayer_crs layer in
         ret (Some (crs_authid c))
     end)
    (fun e => ret None).

Definition export_vector_layer (layer_name output_path driver_name : string)
  : M bool :=
  try_except
    (let* layer := get_layer_by_name layer_name in
     match layer with
     | None => ret false
     | Some layer =>
         let* t := QgsMapLayer_type layer in
         if negb (t =? 0) then ret false
         else
           let* c := QgsMapLayer_crs layer in
           let* error := QgsVectorFileWriter_writeAsVectorFormat
                           layer output_path "utf-8" c driver_name in
           if equals_NoError error then ret true else ret false
     end)
    (fun e => ret false).

(** *** Vocabulary of the properties *)

(** The live object behind a reference. *)
Definition object (w : World) (a : ref) : option Layer :=
  match heap w !! a with
  | Some (Some l) => Some l
  | _ => None
  end.

Definition named (w : World) (n : string) (a : ref) : Prop :=
  exists l, object w a = Some l /\ l_name l = n.

(** Every entry of the layer map points at a live layer object. *)
Definition live (w : World) (m : list (string * ref)) : Prop :=
  Forall (fun e => is_Some (object w e.2)) m.

(** Every entry of the layer map points at a live layer object that is
    registered under its own id. *)
Definition consistent (w : World) (m : list (string * ref)) : Prop :=
  Forall (fun e => exists l, object w e.2 = Some l /\ l_id l = e.1) m.

(** [r] is the first layer of [m], in iteration order, whose name is [n];
    [None] when no layer of [m] has that name. *)
Inductive first_named (w : World) (n : string)
  : list (string * ref) -> option ref -> Prop :=
  | first_named_none m :
      Forall (fun e => ~ named w n e.2) m ->
      first_named w n m None
  | first_named_some pre k a post :
      Forall (fun e => ~ named w n e.2) pre ->
      named w n a ->
      first_named w n (pre ++ (k, a) :: post)%list (Some a).

(** The resolved layer is absent, or is not a vector layer (a raster layer,
    of type code 1, in particular). *)
Definition absent_or_not_vector (w : World) (r : option ref) : Prop :=
  match r with
  | None => True
  | Some a => exists l, object w a = Some l /\ l_type l <> VectorLayer
  end.

(** What [removeMapLayer] leaves behind when called with the id of [l]. *)
Definition after_removal (w : World) (m : list (string * ref)) (l : Layer)
  : World :=
  mkWorld
    (Some (List.filter (fun e => negb (String.eqb e.1 (l_id l))) m))
    (delete_objects
       (map snd (List.filter (fun e => String.eqb e.1 (l_id l)) m)) (heap w))
    (provider w) (writer w).

(** The two kinds of layer, the constructor call each [add_*_layer] method
    makes, and the method itself. *)
Inductive LayerKind : Type := Vector | Raster.

Definition kind_code (kind : LayerKind) : Z :=
  match kind with Vector => VectorLayer | Raster => RasterLayer end.

Definition construct (kind : LayerKind) (file_path name : string) : M ref :=
  match kind with
  | Vector => QgsVectorLayer file_path name "ogr"
  | Raster => QgsRasterLayer file_path name
  end.

Definition add_layer (kind : LayerKind) (file_path : string)
    (layer_name : option string) : M (option ref) :=
  match kind with
  | Vector => add_vector_layer file_path layer_name
  | Raster => add_raster_layer file_path layer_name
  end.

(** The feature has a field called [attribute] whose value equals [value]. *)
Definition attribute_equals (attribute : string) (value : Value)
    (feature : QgsFeature) : bool :=
  match lookup_attribute attribute (feature_attributes feature) with
  | Some v => py_eq v value
  | None => false
  end.

(** The features of a layer carry exactly the fields of the layer. *)
Definition schema_respected (l : Layer) : Prop :=
  Forall (fun f => map fst (feature_attributes f) = map field_name (l_fields l))
         (l_features l).

End Facade.

(** ** The manager's own state: project files and the layer tree

    [load_project], [save_project], [__init__] and [set_layer_visibility]
    also use the path the manager remembers, the project files and the
    layer tree of the project.  A session holds these next to the world. *)

Section Session.

Context {Value : Type}.

Local Abbreviation World := (@World Value).
Local Abbreviation Layer := (@Layer Value).

(** The nodes of the layer tree: the id of the layer a node stands for and
    whether the node is checked as visible. *)
Definition LayerTree : Type := list (string * bool).

(** - [world]: the project and its layer objects, as above.
    - [project_path]: [self.project_path].
    - [layer_tree]: the nodes under [self.project.layerTreeRoot()].
    - [read], [write]: what [QgsProject.read] and [QgsProject.write] do
      with a path, and the flag they return.
    - [path_exists]: [os.path.exists]. *)
Record Session : Type := mkSession {
  world : World;
  project_path : option string;
  layer_tree : LayerTree;
  read : string -> World * LayerTree -> outcome bool * (World * LayerTree);
  write : string -> World * LayerTree -> outcome bool * (World * LayerTree);
  path_exists : string -> bool
}.

Definition SessionM (A : Type) : Type := Session -> outcome A * Session.

Definition s_ret {A} (a : A) : SessionM A := fun s => (Ok a, s).
Definition s_bind {A B} (c : SessionM A) (k : A -> SessionM B)
  : SessionM B :=
  fun s =>
    match c s with
    | (Ok a, s') => k a s'
    | (Raised e, s') => (Raised e, s')
    end.
Definition s_try_except {A} (body : SessionM A)
    (handler : Exception -> SessionM A) : SessionM A :=
  fun s =>
    match body s with
    | (Ok a, s') => (Ok a, s')
    | (Raised e, s') => handler e s'
    end.

Notation "'let*' x ':=' c 'in' k" := (s_bind c (fun x => k))
  (at level 10, x name, c at level 100, k at level 200).

Definition with_world (s : Session) (w : World) : Session :=
  mkSession w (project_path s) (layer_tree s) (read s) (write s)
            (path_exists s).

(** A method of the facade that only needs the world. *)
Definition lift {A} (c : @M Value A) : SessionM A :=
  fun s => let (r, w) := c (world s) in (r, with_world s w).

Definition get_project_path : SessionM (option string) :=
  fun s => (Ok (project_path s), s).

Definition set_project_path (p : option string) : SessionM unit :=
  fun s =>
    (Ok tt, mkSession (world s) p (layer_tree s) (read s) (write s)
                      (path_exists s)).

Definition project_io
    (io : Session -> string -> World * LayerTree
          -> outcome bool * (World * LayerTree))
    (path : string) : SessionM bool :=
  fun s =>
    match project (world s) with
    | None => (Raised (deleted "QgsProject"), s)
    | Some _ =>
        let '(r, (w, t)) := io s path (world s, layer_tree s) in
        (r, mkSession w (project_path s) t (read s) (write s) (path_exists s))
    end.

Definition QgsProject_read (path : string) : SessionM bool :=
  project_io read path.
Definition QgsProject_write (path : string) : SessionM bool :=
  project_io write path.

Definition os_path_exists (path : string) : SessionM bool :=
  fun s => (Ok (path_exists s path), s).

(** [self.project.layerTreeRoot()] *)
Definition QgsProject_layerTreeRoot : SessionM unit :=
  fun s =>
    match project (world s) with
    | None => (Raised (deleted "QgsProject"), s)
    | Some _ => (Ok tt, s)
    end.

(** [root.findLayer(id)]: the first node that stands for the layer, by its
    position, or [None]. *)
Fixpoint find_node (layer_id : string) (t : LayerTree) : option nat :=
  match t with
  | [] => None
  | (k, _) :: rest =>
      if String.eqb k layer_id then Some O
      else match find_node layer_id rest with
           | Some i => Some (S i)
           | None => None
           end
  end.

Definition QgsLayerTreeGroup_findLayer (layer_id : string)
  : SessionM (option nat) :=
  fun s => (Ok (find_node layer_id (layer_tree s)), s).

Definition check_node (visible : bool) (node : string * bool) : string * bool :=
  (node.1, visible).

(** [node.setItemVisibilityChecked(visible)] *)
Definition QgsLayerTreeNode_setItemVisibilityChecked (node : nat)
    (visible : bool) : SessionM unit :=
  fun s =>
    (Ok tt, mkSession (world s) (project_path s)
                      (list_alter (check_node visible) node (layer_tree s))
                      (read s) (write s) (path_exists s)).

(** *** QGISProjectManager, continued *)

Definition load_project (project_path : string) : SessionM bool :=
  s_try_except
    (let* _ := set_project_path (Some project_path) in
     let* success := QgsProject_read project_path in
     if success then
       (* the message printed holds len(self.project.mapLayers()) *)
       let* _ := lift QgsProject_mapLayers in
       s_ret success
     else s_ret success)
    (fun e => s_ret false).

(** [save_path or self.project_path] *)
Definition path_or (save_path project_path : option string) : option string :=
  match save_path with
  | Some (String c p) => Some (String c p)
  | _ => project_path
  end.

Definition save_project (save_path : option string) : SessionM bool :=
  s_try_except
    (let* remembered := get_project_path in
     match path_or save_path remembered with
     | Some (String c p) =>
         let path := String c p in
         let* success := QgsProject_write path in
         if success then
           let* _ := set_project_path (Some path) in
           s_ret success
         else s_ret success
     | _ => s_ret false
     end)
    (fun e => s_ret false).

Definition __init__ (project_path : option string) : SessionM unit :=
  let* _ := set_project_path project_path in
  match project_path with
  | Some (String c p) =>
      let* found := os_path_exists (String c p) in
      if found then
        let* _ := load_project (String c p) in
        s_ret tt
      else s_ret tt
  | _ => s_ret tt
  end.

Definition set_layer_visibility (layer_name : string) (visible : bool)
  : SessionM bool :=
  s_try_except
    (let* layer := lift (get_layer_by_name layer_name) in
     match layer with
     | None => s_ret false
     | Some layer =>
         let* root := QgsProject_layerTreeRoot in
         let* i := lift (QgsMapLayer_id layer) in
         let* node := QgsLayerTreeGroup_findLayer i in
         match node with
         | Some node =>
             let* _ := QgsLayerTreeNode_setItemVisibilityChecked node visible in
             s_ret true
         | None => s_ret false
         end
     end)
    (fun e => s_ret false).

(** *** Vocabulary of the further properties *)

(** The summary [list_layers] gives of the layer [l] registered under [k]. *)
Definition layer_summary (k : string) (l : Layer) : LayerInfo :=
  mkLayerInfo k (l_name l) (l_type l) (l_isValid l)
              (if crs_bool (l_crs l) then crs_authid (l_crs l) else "Unknown").

Definition summarises (w : World) (e : string * ref) (info : LayerInfo) : Prop :=
  exists l, object w e.2 = Some l /\ info = layer_summary e.1 l.

(** The project is alive and its layer map is consistent. *)
Definition well_formed (w : World) : Prop :=
  exists m, project w = Some m /\ consistent w m.

(** A computation that leaves the world as it found it, whatever it
    returns or raises. *)
Definition read_only {A} (c : @M Value A) : Prop :=
  forall w, (c w).2 = w.

(** [w'] differs from [w] at most in the selections of its layers. *)
Definition same_but_selections (w w' : World) : Prop :=
  project w' = project w
  /\ forall b, set_selection ∅ <$> object w' b = set_selection ∅ <$> object w b.

(** The id a constructor gives the next layer object when asked to call it
    [name]. *)
Definition next_id (w : World) (name : string) : string :=
  name +:+ "_" +:+ pretty (length (heap w)).

End Session.

(** ** Sample worlds *)

Definition epsg4326 : QgsCoordinateReferenceSystem := mkCrs "EPSG:4326" true.

Definition road_fields : list QgsField := [mkField "class"; mkField "lanes"].

Definition road (fid class lanes : Z) : @QgsFeature Z :=
  mkFeature fid [("class", class); ("lanes", lanes)].

Definition road_features : list (@QgsFeature Z) :=
  [road 1 1 2; road 2 3 2; road 3 1 4].

Definition roads : @Layer Z :=
  mkLayer "L1" "roads" VectorLayer true epsg4326 road_fields road_features ∅.

Definition relief : @Layer Z :=
  mkLayer "L2" "relief" RasterLayer true epsg4326 [] [] ∅.

(** A raster layer that shares its name with the vector layer [roads]. *)
Definition roads_scan : @Layer Z :=
  mkLayer "L3" "roads" RasterLayer true epsg4326 [] [] ∅.

(** On disk: one shapefile and one raster; everything else fails to open. *)
Definition disk (providerLib path : string) : option (@DataSource Z) :=
  if String.eqb providerLib "ogr" && String.eqb path "/data/roads.shp"
  then Some (VectorData epsg4326 road_fields road_features)
  else if String.eqb providerLib "gdal" && String.eqb path "/data/relief.tif"
  then Some (RasterData epsg4326)
  else None.

(** The writer of the QGIS 3 binding: it knows one driver, and returns the
    error code together with a message. *)
Definition ogr_writer (l : @Layer Z) (fileName driverName : string)
  : outcome WriterResult :=
  if String.eqb driverName "ESRI Shapefile"
  then Ok (WriterErrorAndMessage NoError "")
  else Ok (WriterErrorAndMessage 7 "unknown driver").

(** The writer of the QGIS 2 binding: the same verdicts as bare codes. *)
Definition legacy_writer (l : @Layer Z) (fileName driverName : string)
  : outcome WriterResult :=
  if String.eqb driverName "ESRI Shapefile" then Ok (WriterError NoError)
  else Ok (WriterError 7).

(** The registry of the specification's scenario: one vector layer. *)
Definition registry : @World Z :=
  mkWorld (Some [("L1", 0%nat)]) [Some roads] disk ogr_writer.

(** A project with three layers, two of them called "roads". *)
Definition atlas : @World Z :=
  mkWorld (Some [("L2", 0%nat); ("L1", 1%nat); ("L3", 2%nat)])
          [Some relief; Some roads; Some roads_scan] disk ogr_writer.

(** The three-layer project under the QGIS 2 binding. *)
Definition legacy_atlas : @World Z :=
  mkWorld (Some [("L2", 0%nat); ("L1", 1%nat); ("L3", 2%nat)])
          [Some relief; Some roads; Some roads_scan] disk legacy_writer.

(** The same layers after the application has shut the project down. *)
Definition shut_down : @World Z :=
  mkWorld None [Some relief; Some roads; Some roads_scan] disk ogr_writer.

(** The layer the OGR provider builds from the shapefile when asked to call
    it "streets", as the second object of the store. *)
Definition streets : @Layer Z :=
  mkLayer "streets_1" "streets" VectorLayer true epsg4326 road_fields
          road_features ∅.

(** An empty project. *)
Definition blank : @World Z := mkWorld (Some []) [] disk ogr_writer.

(** The raster layer the GDAL provider builds from the raster file when
    asked to call it "dem", as the second object of the store. *)
Definition dem : @Layer Z :=
  mkLayer "dem_1" "dem" RasterLayer true epsg4326 [] [] ∅.

(** An empty project on a disk where every path opens, as the road data set
    for the OGR provider and as a raster for the GDAL provider, files kept
    without extension included. *)
Definition any_path : @World Z :=
  mkWorld (Some []) []
          (fun providerLib _ =>
             if String.eqb providerLib "ogr"
             then Some (VectorData epsg4326 road_fields road_features)
             else Some (RasterData epsg4326))
          ogr_writer.

(** The first layer objects of an empty store: the road data set called
    "roads" and a raster called "relief". *)
Definition first_roads : @Layer Z :=
  mkLayer "roads_0" "roads" VectorLayer true epsg4326 road_fields
          road_features ∅.

Definition first_relief : @Layer Z :=
  mkLayer "relief_0" "relief" RasterLayer true epsg4326 [] [] ∅.

(** ** Sample sessions *)

Definition city_tree : LayerTree := [("L2", true); ("L1", true); ("L3", false)].

(** One project file can be read; one path cannot be written to. *)
Definition qgs_read (path : string) (state : @World Z * LayerTree)
  : outcome bool * (@World Z * LayerTree) :=
  if String.eqb path "/projects/city.qgs" then (Ok true, (atlas, city_tree))
  else (Ok false, state).

Definition qgs_write (path : string) (state : @World Z * LayerTree)
  : outcome bool * (@World Z * LayerTree) :=
  if String.eqb path "/readonly/city.qgs" then (Ok false, state)
  else (Ok true, state).

Definition on_disk (path : string) : bool :=
  String.eqb path "/projects/city.qgs".

(** A manager on the three-layer project, with no path remembered; the
    layer "L3" is hidden. *)
Definition desk : @Session Z :=
  mkSession atlas None city_tree qgs_read qgs_write on_disk.

(** A manager on the one-layer project, whose layer has no node in the
    layer tree. *)
Definition bare_desk : @Session Z :=
  mkSession registry None [] qgs_read qgs_write on_disk.

(** ** Properties of the facade *)

Section Properties.

Context {Value : Type} (py_eq : Value -> Value -> bool).

Local Abbreviation World := (@World Value).
Local Abbreviation Layer := (@Layer Value).
Local Abbreviation QgsFeature := (@QgsFeature Value).

Local Notation "'let*' x ':=' c 'in' k" := (bind c (fun x => k))
  (at level 10, x name, c at level 100, k at level 200).

(** *** The toolkit's accessors on a live object *)

Lemma deref_object (w : World) (a : ref) (l : Layer) :
  object w a = Some l -> deref a w = (Ok l, w).
Proof.
  unfold object, deref. destruct (heap w !! a) as [[l'|]|]; congruence.
Qed.

Lemma name_object (w : World) (a : ref) (l : Layer) :
  object w a = Some l -> QgsMapLayer_name a w = (Ok (l_name l), w).
Proof.
  intros H. unfold QgsMapLayer_name, bind. now rewrite (deref_object _ _ _ H).
Qed.

Lemma type_object (w : World) (a : ref) (l : Layer) :
  object w a = Some l -> QgsMapLayer_type a w = (Ok (l_type l), w).
Proof.
  intros H. unfold QgsMapLayer_type, bind. now rewrite (deref_object _ _ _ H).
Qed.

Lemma id_object (w : World) (a : ref) (l : Layer) :
  object w a = Some l -> QgsMapLayer_id a w = (Ok (l_id l), w).
Proof.
  intros H. unfold QgsMapLayer_id, bind. now rewrite (deref_object _ _ _ H).
Qed.

Lemma mapLayers_project (w : World) (m : list (string * ref)) :
  project w = Some m -> QgsProject_mapLayers w = (Ok m, w).
Proof. intros H. unfold QgsProject_mapLayers. now rewrite H. Qed.

Lemma consistent_live (w : World) (m : list (string * ref)) :
  consistent w m -> live w m.
Proof.
  intros H. eapply Forall_impl; [exact H|]. intros e [l [Hl _]]. now exists l.
Qed.

(** *** Name lookup *)

Lemma get_layer_by_name_loop_first (w : World) (n : string)
    (m : list (string * ref)) :
  live w m ->
  exists r, get_layer_by_name_loop n (map snd m) w = (Ok r, w)
            /\ first_named w n m r.
Proof.
  induction m as [|[k a] m IH]; intros Hlive.
  - exists None. split; [reflexivity|]. constructor. constructor.
  - inversion Hlive as [|e m' [l Hl] Hrest]; subst. simpl in Hl.
    cbn [map snd get_layer_by_name_loop]. unfold bind at 1.
    rewrite (name_object _ _ _ Hl).
    destruct (String.eqb (l_name l) n) eqn:Heq.
    + apply String.eqb_eq in Heq. exists (Some a). split; [reflexivity|].
      apply (first_named_some w n [] k a m); [constructor|].
      exists l. auto.
    + apply String.eqb_neq in Heq.
      destruct (IH Hrest) as [r [Hr Hfirst]]. exists r. split; [exact Hr|].
      assert (Hnot : ~ named w n a).
      { intros [l' [Hl' Hn]]. rewrite Hl in Hl'. congruence. }
      destruct Hfirst as [m Hnone | pre k' a' post Hpre Ha'].
      * constructor. constructor; assumption.
      * apply (first_named_some w n ((k, a) :: pre) k' a' post); [|exact Ha'].
        constructor; assumption.
Qed.

Lemma get_layer_by_name_resolves (w : World) (layer_name : string)
    (m : list (string * ref)) :
  project w = Some m ->
  live w m ->
  exists r, get_layer_by_name layer_name w = (Ok r, w)
            /\ first_named w layer_name m r.
Proof.
  intros Hm Hlive. unfold get_layer_by_name, bind.
  rewrite (mapLayers_project _ _ Hm).
  now apply get_layer_by_name_loop_first.
Qed.

(** C1.  In a project whose layer map [m] holds live layers,
    [get_layer_by_name] returns, without changing anything, the first
    layer of [m] in iteration order whose name is the queried one (whatever
    follows it, layers of the same name included), and [None] when no
    layer has that name; it raises nothing, and a second call made right
    after the first returns the same layer. *)
Theorem get_layer_by_name_first_match (w : World) (layer_name : string)
    (m : list (string * ref)) :
  project w = Some m ->
  live w m ->
  exists r, get_layer_by_name layer_name w = (Ok r, w)
            /\ first_named w layer_name m r
            /\ (let* r1 := get_layer_by_name layer_name in
                let* r2 := get_layer_by_name layer_name in
                ret (r1, r2)) w = (Ok (r, r), w).
Proof.
  intros Hm Hlive.
  destruct (get_layer_by_name_resolves w layer_name m Hm Hlive)
    as [r [Hr Hfirst]].
  exists r. repeat split; try assumption.
  unfold bind at 1. rewrite Hr. unfold bind at 1. now rewrite Hr.
Qed.

Lemma get_layer_by_name_loop_read_only (n : string) (vs : list ref)
    (w w' : World) (r : outcome (option ref)) :
  get_layer_by_name_loop n vs w = (r, w') -> w' = w.
Proof.
  induction vs as [|a vs IH]; cbn [get_layer_by_name_loop].
  - unfold ret. congruence.
  - unfold bind at 1, QgsMapLayer_name, bind, deref.
    destruct (heap w !! a) as [[l|]|]; try congruence.
    unfold ret at 1. destruct (String.eqb (l_name l) n); [unfold ret; congruence|].
    exact IH.
Qed.

Lemma get_layer_by_name_read_only (n : string) (w w' : World)
    (r : outcome (option ref)) :
  get_layer_by_name n w = (r, w') -> w' = w.
Proof.
  unfold get_layer_by_name, bind at 1, QgsProject_mapLayers.
  destruct (project w); [|congruence].
  apply get_layer_by_name_loop_read_only.
Qed.

(** *** The type guard *)

(** Unfolds a guarded method down to the outcome of the name lookup, which
    the hypothesis [H] gives. *)
Ltac resolve_with H :=
  unfold try_except, bind at 1; rewrite H.

Ltac reject_by_guard Hget Hr :=
  resolve_with Hget;
  match type of Hr with
  | absent_or_not_vector _ None => reflexivity
  | absent_or_not_vector _ (Some _) =>
      let l := fresh "l" in
      let Hl := fresh "Hl" in
      let Ht := fresh "Ht" in
      destruct Hr as [l [Hl Ht]];
      unfold bind at 1; rewrite (type_object _ _ _ Hl);
      unfold VectorLayer in Ht;
      destruct (Z.eqb_spec (l_type l) 0); [contradiction|reflexivity]
  end.

(** C2.  When the name resolves to no layer, or to a layer that is not a
    vector layer (a raster layer in particular), each of the six methods
    that need a vector layer returns its failure value, the empty list or
    [False]; none raises and the world is left as it was. *)
Theorem vector_methods_reject (w : World) (layer_name : string)
    (r : option ref) (limit : option Z) (attribute : string) (value : Value)
    (feature_ids : list Z) (output_path driver_name : string) :
  get_layer_by_name layer_name w = (Ok r, w) ->
  absent_or_not_vector w r ->
  get_layer_features layer_name limit w = (Ok [], w)
  /\ get_layer_attributes layer_name w = (Ok [], w)
  /\ filter_features py_eq layer_name attribute value w = (Ok [], w)
  /\ select_features layer_name feature_ids w = (Ok false, w)
  /\ clear_selection layer_name w = (Ok false, w)
  /\ export_vector_layer layer_name output_path driver_name w = (Ok false, w).
Proof.
  intros Hget Hr.
  unfold get_layer_features, get_layer_attributes, filter_features,
    select_features, clear_selection, export_vector_layer.
  destruct r as [a|]; repeat split; reject_by_guard Hget Hr.
Qed.

(** *** Faults *)

(** A [try ... except Exception] block whose handler returns a value
    returns a value. *)
Lemma try_except_returns {A : Type} (body : @M Value A) (failure : A)
    (w : World) :
  exists (a : A) (w' : World),
    try_except body (fun _ => ret failure) w = (Ok a, w').
Proof.
  unfold try_except. destruct (body w) as [[a|e] w']; eauto.
Qed.

(** Every method written as a [try ... except Exception] block returns one
    of its outcome values in every world, whatever the toolkit raises. *)
Lemma guarded_methods_return (w : World) (file_path layer_name : string)
    (name : option string) (limit : option Z) (attribute : string)
    (value : Value) (feature_ids : list Z) (output_path driver_name : string) :
  (exists a w', add_vector_layer file_path name w = (Ok a, w'))
  /\ (exists a w', add_raster_layer file_path name w = (Ok a, w'))
  /\ (exists a w', remove_layer layer_name w = (Ok a, w'))
  /\ (exists a w', get_layer_features layer_name limit w = (Ok a, w'))
  /\ (exists a w', get_layer_attributes layer_name w = (Ok a, w'))
  /\ (exists a w', filter_features py_eq layer_name attribute value w = (Ok a, w'))
  /\ (exists a w', select_features layer_name feature_ids w = (Ok a, w'))
  /\ (exists a w', clear_selection layer_name w = (Ok a, w'))
  /\ (exists a w', get_layer_crs layer_name w = (Ok a, w'))
  /\ (exists a w', export_vector_layer layer_name output_path driver_name w
                   = (Ok a, w')).
Proof.
  repeat split; apply try_except_returns.
Qed.

(** The two methods written without a [try] block pass on what the project
    raises. *)
Lemma unguarded_methods_raise (w : World) (layer_name : string) :
  project w = None ->
  get_layer_by_name layer_name w = (Raised (deleted "QgsProject"), w)
  /\ list_layers w = (Raised (deleted "QgsProject"), w).
Proof.
  intros H. unfold get_layer_by_name, list_layers, bind, QgsProject_mapLayers.
  now rewrite H.
Qed.

(** *** The feature limit *)

Lemma get_layer_features_loop_all (limit : option Z) (i : Z)
    (iterator acc : list QgsFeature) :
  (forall j, limit_reached limit j = false) ->
  get_layer_features_loop limit i iterator acc = (acc ++ iterator)%list.
Proof.
  intros Hno. revert i acc.
  induction iterator as [|f rest IH]; intros i acc; cbn [get_layer_features_loop].
  - now rewrite app_nil_r.
  - rewrite Hno, IH. now rewrite <- app_assoc.
Qed.

Lemma get_layer_features_loop_take (n i : Z)
    (iterator acc : list QgsFeature) :
  0 < n -> 0 <= i <= n ->
  get_layer_features_loop (Some n) i iterator acc
  = (acc ++ firstn (Z.to_nat (n - i)) iterator)%list.
Proof.
  intros Hn. revert i acc.
  induction iterator as [|f rest IH]; intros i acc Hi;
    cbn [get_layer_features_loop].
  - now rewrite firstn_nil, app_nil_r.
  - unfold limit_reached. destruct (Z.eqb_spec n 0); [lia|].
    destruct (Z.geb_spec i n).
    + replace (n - i) with 0 by lia. now rewrite app_nil_r.
    + rewrite IH by lia. rewrite <- app_assoc.
      replace (Z.to_nat (n - i)) with (S (Z.to_nat (n - (i + 1)))) by lia.
      reflexivity.
Qed.

(** With no limit every feature is returned, and with a limit above zero the
    first [limit] features are, in the order of the layer. *)
Lemma get_layer_features_prefix (w : World) (layer_name : string) (a : ref)
    (l : Layer) (limit : option Z) :
  get_layer_by_name layer_name w = (Ok (Some a), w) ->
  object w a = Some l ->
  l_type l = VectorLayer ->
  match limit with
  | None => get_layer_features layer_name None w = (Ok (l_features l), w)
  | Some n =>
      0 < n ->
      get_layer_features layer_name (Some n) w
      = (Ok (firstn (Z.to_nat n) (l_features l)), w)
  end.
Proof.
  intros Hget Hl Ht.
  assert (Hrun : forall lim,
    get_layer_features layer_name lim w
    = (Ok (get_layer_features_loop lim 0 (l_features l) []), w)).
  { intros lim. unfold get_layer_features. resolve_with Hget.
    unfold bind at 1. rewrite (type_object _ _ _ Hl), Ht. cbn [Z.eqb VectorLayer negb].
    unfold bind, QgsVectorLayer_getFeatures, vector_only, bind.
    rewrite (deref_object _ _ _ Hl), Ht. reflexivity. }
  destruct limit as [n|].
  - intros Hn. rewrite Hrun, get_layer_features_loop_take by lia.
    now rewrite Z.sub_0_r.
  - rewrite Hrun, get_layer_features_loop_all by reflexivity. reflexivity.
Qed.

(** A limit of zero is taken for no limit at all. *)
Lemma get_layer_features_zero (w : World) (layer_name : string) :
  get_layer_features layer_name (Some 0) w
  = get_layer_features layer_name None w.
Proof.
  unfold get_layer_features.
  assert (H : forall it : list QgsFeature,
    get_layer_features_loop (Some 0) 0 it [] = get_layer_features_loop None 0 it []).
  { intros it. now rewrite !get_layer_features_loop_all by reflexivity. }
  unfold try_except, bind.
  destruct (get_layer_by_name layer_name w) as [[[a|]|e] w1]; try reflexivity.
  destruct (QgsMapLayer_type a w1) as [[t|e] w2]; try reflexivity.
  destruct (negb (t =? 0)); try reflexivity.
  destruct (QgsVectorLayer_getFeatures a w2) as [[it|e] w3]; try reflexivity.
  unfold ret. now rewrite H.
Qed.

(** *** Filtering by attribute *)

Lemma lookup_attribute_None (attribute : string) (attrs : list (string * Value)) :
  lookup_attribute attribute attrs = None <-> ~ In attribute (map fst attrs).
Proof.
  induction attrs as [|[k v] attrs IH]; cbn [lookup_attribute map fst In].
  - tauto.
  - destruct (String.eqb_spec k attribute); [|tauto].
    split; [discriminate|]. intros H. exfalso. apply H. now left.
Qed.

Lemma filter_features_loop_known (attribute : string) (value : Value)
    (iterator acc : list QgsFeature) (w : World) :
  Forall (fun f => In attribute (map fst (feature_attributes f))) iterator ->
  filter_features_loop py_eq attribute value iterator acc w
  = (Ok (acc ++ List.filter (attribute_equals py_eq attribute value) iterator)%list, w).
Proof.
  revert acc. induction iterator as [|f rest IH]; intros acc Hall;
    cbn [filter_features_loop List.filter].
  - now rewrite app_nil_r.
  - inversion Hall as [|f' rest' Hf Hrest]; subst.
    unfold bind, QgsFeature_attribute, attribute_equals.
    destruct (lookup_attribute attribute (feature_attributes f)) as [v|] eqn:Hv.
    + unfold ret at 1. destruct (py_eq v value).
      * rewrite IH by assumption. now rewrite <- app_assoc.
      * now apply IH.
    + apply lookup_attribute_None in Hv. contradiction.
Qed.

Lemma filter_features_loop_unknown (attribute : string) (value : Value)
    (f : QgsFeature) (rest acc : list QgsFeature) (w : World) :
  ~ In attribute (map fst (feature_attributes f)) ->
  filter_features_loop py_eq attribute value (f :: rest) acc w
  = (Raised (KeyError attribute), w).
Proof.
  intros H. apply lookup_attribute_None in H.
  cbn [filter_features_loop]. unfold bind, QgsFeature_attribute.
  now rewrite H.
Qed.

Lemma filter_unknown_attribute (attribute : string) (value : Value)
    (fs : list QgsFeature) :
  Forall (fun f => ~ In attribute (map fst (feature_attributes f))) fs ->
  List.filter (attribute_equals py_eq attribute value) fs = [].
Proof.
  induction 1 as [|f fs Hf _ IH]; [reflexivity|].
  cbn [List.filter]. unfold attribute_equals at 1.
  apply lookup_attribute_None in Hf. now rewrite Hf.
Qed.

Lemma filter_features_result (w : World) (layer_name attribute : string)
    (value : Value) (a : ref) (l : Layer) :
  get_layer_by_name layer_name w = (Ok (Some a), w) ->
  object w a = Some l ->
  schema_respected l ->
  filter_features py_eq layer_name attribute value w
  = (Ok (if l_type l =? VectorLayer
         then List.filter (attribute_equals py_eq attribute value) (l_features l)
         else []), w).
Proof.
  intros Hget Hl Hschema. unfold filter_features. resolve_with Hget.
  unfold bind at 1. rewrite (type_object _ _ _ Hl). unfold VectorLayer.
  destruct (Z.eqb_spec (l_type l) 0) as [Ht|Ht]; [|reflexivity].
  cbn [negb]. unfold bind at 1, QgsVectorLayer_getFeatures, vector_only, bind.
  rewrite (deref_object _ _ _ Hl), Ht. cbn [Z.eqb VectorLayer]. unfold ret at 1 2.
  unfold schema_respected in Hschema.
  destruct (in_dec string_dec attribute (map field_name (l_fields l))) as [Hin|Hout].
  - rewrite filter_features_loop_known; [reflexivity|].
    eapply Forall_impl; [exact Hschema|]. cbn beta. intros f Hf. now rewrite Hf.
  - assert (Hnone : Forall (fun f => ~ In attribute (map fst (feature_attributes f)))
                           (l_features l)).
    { eapply Forall_impl; [exact Hschema|]. cbn beta. intros f Hf. now rewrite Hf. }
    rewrite (filter_unknown_attribute _ _ _ Hnone).
    destruct (l_features l) as [|f rest]; [reflexivity|].
    inversion Hnone; subst.
    now rewrite filter_features_loop_unknown.
Qed.

(** C5.  On a layer resolved by name whose features carry the fields of the
    layer, [filter_features] returns, in the order of the layer, exactly the
    features whose attribute equals the value under [==] when the layer is a
    vector layer, and the empty list when it is not (a raster layer); the
    world is untouched, and calling it twice in a row gives that same list
    twice. *)
Theorem filter_features_exact (w : World) (layer_name attribute : string)
    (value : Value) (a : ref) (l : Layer) :
  get_layer_by_name layer_name w = (Ok (Some a), w) ->
  object w a = Some l ->
  schema_respected l ->
  let matching :=
    if l_type l =? VectorLayer
    then List.filter (attribute_equals py_eq attribute value) (l_features l)
    else [] in
  filter_features py_eq layer_name attribute value w = (Ok matching, w)
  /\ (let* r1 := filter_features py_eq layer_name attribute value in
      let* r2 := filter_features py_eq layer_name attribute value in
      ret (r1, r2)) w = (Ok (matching, matching), w).
Proof.
  intros Hget Hl Hschema matching.
  pose proof (filter_features_result w layer_name attribute value a l
                Hget Hl Hschema) as H.
  fold matching in H. split; [exact H|].
  unfold bind at 1. rewrite H. unfold bind at 1. now rewrite H.
Qed.

(** *** Selection *)

(** Name lookup only reads the names of the layer objects. *)
Lemma get_layer_by_name_loop_names (n : string) (vs : list ref)
    (w w1 : World) (r : option ref) :
  (forall b, l_name <$> object w1 b = l_name <$> object w b) ->
  get_layer_by_name_loop n vs w = (Ok r, w) ->
  get_layer_by_name_loop n vs w1 = (Ok r, w1).
Proof.
  intros Hnames. induction vs as [|b vs IH]; cbn [get_layer_by_name_loop].
  - unfold ret. congruence.
  - specialize (Hnames b). unfold object in Hnames.
    intros H. unfold bind, QgsMapLayer_name, bind, deref in H |- *.
    destruct (heap w !! b) as [[l|]|], (heap w1 !! b) as [[l1|]|];
      try discriminate; cbn in Hnames.
    unfold ret at 1 in H. unfold ret at 1.
    replace (l_name l1) with (l_name l) by congruence.
    destruct (String.eqb (l_name l) n); [unfold ret in *; congruence|auto].
Qed.

Lemma get_layer_by_name_names (n : string) (w w1 : World) (r : option ref) :
  project w1 = project w ->
  (forall b, l_name <$> object w1 b = l_name <$> object w b) ->
  get_layer_by_name n w = (Ok r, w) ->
  get_layer_by_name n w1 = (Ok r, w1).
Proof.
  intros Hp Hnames. unfold get_layer_by_name, bind, QgsProject_mapLayers.
  rewrite Hp. destruct (project w); [|discriminate].
  now apply get_layer_by_name_loop_names.
Qed.

Lemma object_store (w : World) (a b : ref) (l l' : Layer) :
  object w a = Some l ->
  object (store a l' w).2 b = if decide (a = b) then Some l' else object w b.
Proof.
  unfold object, store. cbn [snd heap]. intros Hl.
  destruct (decide (a = b)) as [->|Hne].
  - rewrite list_lookup_insert_eq; [reflexivity|].
    destruct (heap w !! b) as [o|] eqn:Hb; [|discriminate].
    now apply lookup_lt_Some in Hb.
  - now rewrite list_lookup_insert_ne.
Qed.

(** Setting the selection of a live vector layer found by name. *)
Lemma set_selection_run (w : World) (a : ref) (l : Layer) (ids : gset Z) :
  object w a = Some l ->
  let w1 := (store a (set_selection ids l) w).2 in
  object w1 a = Some (set_selection ids l)
  /\ project w1 = project w
  /\ forall b, l_name <$> object w1 b = l_name <$> object w b.
Proof.
  intros Hl w1. repeat split.
  - unfold w1. rewrite (object_store w a a l _ Hl). now rewrite decide_True.
  - intros b. unfold w1. rewrite (object_store w a b l _ Hl).
    destruct (decide (a = b)) as [<-|]; [|reflexivity]. now rewrite Hl.
Qed.

Lemma select_features_run (w : World) (layer_name : string) (a : ref)
    (l : Layer) (feature_ids : list Z) :
  get_layer_by_name layer_name w = (Ok (Some a), w) ->
  object w a = Some l ->
  l_type l = VectorLayer ->
  select_features layer_name feature_ids w
  = (Ok true, (store a (set_selection (list_to_set feature_ids) l) w).2).
Proof.
  intros Hget Hl Ht. unfold select_features. resolve_with Hget.
  unfold bind at 1. rewrite (type_object _ _ _ Hl), Ht. cbn [Z.eqb VectorLayer negb].
  unfold bind at 1, QgsVectorLayer_selectByIds, bind, vector_only, bind.
  rewrite (deref_object _ _ _ Hl), Ht. reflexivity.
Qed.

Lemma clear_selection_run (w : World) (layer_name : string) (a : ref)
    (l : Layer) :
  get_layer_by_name layer_name w = (Ok (Some a), w) ->
  object w a = Some l ->
  l_type l = VectorLayer ->
  clear_selection layer_name w
  = (Ok true, (store a (set_selection ∅ l) w).2).
Proof.
  intros Hget Hl Ht. unfold clear_selection. resolve_with Hget.
  unfold bind at 1. rewrite (type_object _ _ _ Hl), Ht. cbn [Z.eqb VectorLayer negb].
  unfold bind at 1, QgsVectorLayer_removeSelection, bind, vector_only, bind.
  rewrite (deref_object _ _ _ Hl), Ht. reflexivity.
Qed.

(** C6.  On a vector layer resolved by name, [select_features] succeeds and
    makes the given ids the selection of the layer; [clear_selection] called
    next succeeds as well and leaves the selection of that layer empty,
    whatever the ids were. *)
Theorem select_then_clear_selection (w : World) (layer_name : string)
    (a : ref) (l : Layer) (feature_ids : list Z) :
  get_layer_by_name layer_name w = (Ok (Some a), w) ->
  object w a = Some l ->
  l_type l = VectorLayer ->
  exists (w1 w2 : World) (l1 l2 : Layer),
    select_features layer_name feature_ids w = (Ok true, w1)
    /\ object w1 a = Some l1
    /\ l_selectedFeatureIds l1 = list_to_set feature_ids
    /\ (let* _ := select_features layer_name feature_ids in
        clear_selection layer_name) w = (Ok true, w2)
    /\ object w2 a = Some l2
    /\ l_selectedFeatureIds l2 = ∅.
Proof.
  intros Hget Hl Ht.
  set (l1 := set_selection (list_to_set feature_ids) l).
  set (w1 := (store a l1 w).2).
  destruct (set_selection_run w a l (list_to_set feature_ids) Hl)
    as [Hl1 [Hp1 Hn1]]. fold l1 in Hl1, Hp1, Hn1. fold w1 in Hl1, Hp1, Hn1.
  pose proof (get_layer_by_name_names _ _ w1 _ Hp1 Hn1 Hget) as Hget1.
  pose proof (select_features_run w layer_name a l feature_ids Hget Hl Ht) as Hsel.
  fold l1 in Hsel. fold w1 in Hsel.
  pose proof (clear_selection_run w1 layer_name a l1 Hget1 Hl1 Ht) as Hclr.
  destruct (set_selection_run w1 a l1 ∅ Hl1) as [Hl2 _].
  exists w1, (store a (set_selection ∅ l1) w1).2, l1, (set_selection ∅ l1).
  repeat split; try assumption.
  unfold bind. now rewrite Hsel.
Qed.

(** *** Removal *)

Lemma get_layer_by_name_absent (w : World) (n : string)
    (m : list (string * ref)) :
  project w = Some m ->
  Forall (fun e => exists l, object w e.2 = Some l /\ l_name l <> n) m ->
  get_layer_by_name n w = (Ok None, w).
Proof.
  intros Hm Hall. unfold get_layer_by_name, bind at 1.
  rewrite (mapLayers_project _ _ Hm). clear Hm.
  induction Hall as [|[k a] m [l [Hl Hn]] _ IH]; [reflexivity|].
  cbn [map snd get_layer_by_name_loop]. unfold bind at 1.
  cbn [snd] in Hl. rewrite (name_object _ _ _ Hl). unfold ret at 1.
  apply String.eqb_neq in Hn. now rewrite Hn.
Qed.

Lemma remove_layer_absent (w : World) (n : string) :
  get_layer_by_name n w = (Ok None, w) ->
  remove_layer n w = (Ok false, w).
Proof. intros H. unfold remove_layer. resolve_with H. reflexivity. Qed.

Lemma delete_objects_other (refs : list ref) (h : list (option Layer))
    (b : ref) :
  ~ In b refs -> delete_objects refs h !! b = h !! b.
Proof.
  induction refs as [|a refs IH]; cbn [delete_objects foldr In]; [reflexivity|].
  intros H. rewrite list_lookup_insert_ne by tauto.
  apply IH. tauto.
Qed.

Lemma remove_layer_run (w : World) (m : list (string * ref)) (n : string)
    (a : ref) (l : Layer) :
  project w = Some m ->
  get_layer_by_name n w = (Ok (Some a), w) ->
  object w a = Some l ->
  remove_layer n w = (Ok true, after_removal w m l).
Proof.
  intros Hm Hget Hl. unfold remove_layer. resolve_with Hget.
  unfold bind at 1. rewrite (id_object _ _ _ Hl).
  unfold bind at 1, QgsProject_removeMapLayer, bind.
  rewrite (mapLayers_project _ _ Hm). reflexivity.
Qed.

(** In a consistent map two entries that share their layer object share
    their key, so deleting the objects of one key leaves the others alone. *)
Lemma kept_objects (w : World) (m : list (string * ref)) (l : Layer)
    (e : string * ref) :
  consistent w m ->
  In e m ->
  e.1 <> l_id l ->
  object (after_removal w m l) e.2 = object w e.2.
Proof.
  intros Hcons He Hkey. unfold object, after_removal. cbn [heap].
  rewrite delete_objects_other; [reflexivity|].
  intros Hin. apply in_map_iff in Hin. destruct Hin as [g [Hg Hgone]].
  apply filter_In in Hgone. destruct Hgone as [Hgm Hgk].
  apply String.eqb_eq in Hgk.
  unfold consistent in Hcons. rewrite Forall_forall in Hcons.
  destruct (Hcons e) as [le [Hle Hide]]; [now apply list_elem_of_In|].
  destruct (Hcons g) as [lg [Hlg Hidg]]; [now apply list_elem_of_In|].
  rewrite Hg in Hlg. rewrite Hle in Hlg. congruence.
Qed.

(** C7.  In a consistent project, [remove_layer] resolves the name to the
    first layer so named.  When there is none it returns [False] and
    changes nothing.  When there is one it returns [True] and the layer map
    loses the entries registered under the id of that layer; if moreover no
    other layer object carries the name, a lookup of the name then finds
    nothing and a second [remove_layer] returns [False]. *)
Theorem remove_layer_by_name (w : World) (m : list (string * ref))
    (layer_name : string) :
  project w = Some m ->
  consistent w m ->
  exists r,
    get_layer_by_name layer_name w = (Ok r, w)
    /\ first_named w layer_name m r
    /\ match r with
       | None => remove_layer layer_name w = (Ok false, w)
       | Some a =>
           exists (l : Layer) (w' : World),
             object w a = Some l
             /\ remove_layer layer_name w = (Ok true, w')
             /\ project w'
                = Some (List.filter (fun e => negb (String.eqb e.1 (l_id l))) m)
             /\ ((forall e, In e m -> named w layer_name e.2 -> e.2 = a) ->
                 get_layer_by_name layer_name w' = (Ok None, w')
                 /\ remove_layer layer_name w' = (Ok false, w'))
       end.
Proof.
  intros Hm Hcons.
  destruct (get_layer_by_name_resolves w layer_name m Hm
              (consistent_live _ _ Hcons)) as [r [Hget Hfirst]].
  exists r. split; [exact Hget|]. split; [exact Hfirst|].
  destruct r as [a|]; [|now apply remove_layer_absent].
  assert (Hnamed : named w layer_name a) by (inversion Hfirst; assumption).
  destruct Hnamed as [l [Hl Hname]].
  exists l, (after_removal w m l). split; [exact Hl|].
  split; [now apply (remove_layer_run w m layer_name a l)|].
  split; [reflexivity|].
  intros Honly.
  assert (Hgone : get_layer_by_name layer_name (after_removal w m l)
                  = (Ok None, after_removal w m l)).
  { apply (get_layer_by_name_absent _ _
             (List.filter (fun e => negb (String.eqb e.1 (l_id l))) m));
      [reflexivity|].
    apply Forall_forall. intros e He. apply list_elem_of_In in He.
    apply filter_In in He. destruct He as [He Hk].
    apply negb_true_iff, String.eqb_neq in Hk.
    rewrite (kept_objects w m l e Hcons He Hk).
    unfold consistent in Hcons. rewrite Forall_forall in Hcons.
    destruct (Hcons e) as [le [Hle Hide]]; [now apply list_elem_of_In|].
    exists le. split; [exact Hle|]. intros Hn.
    assert (Hea : e.2 = a) by (apply Honly; [exact He|now exists le]).
    rewrite Hea in Hle. congruence. }
  split; [exact Hgone|now apply remove_layer_absent].
Qed.

(** *** Paths *)

Lemma append_nil (s : string) : "" +:+ s = s.
Proof. reflexivity. Qed.

Lemma append_cons (c : ascii) (s1 s2 : string) :
  String c s1 +:+ s2 = String c (s1 +:+ s2).
Proof. reflexivity. Qed.

Lemma append_assoc (s1 s2 s3 : string) :
  (s1 +:+ s2) +:+ s3 = s1 +:+ (s2 +:+ s3).
Proof.
  induction s1 as [|c s1 IH]; [reflexivity|].
  rewrite !append_cons. now rewrite IH.
Qed.

Lemma length_append (s1 s2 : string) :
  String.length (s1 +:+ s2) = (String.length s1 + String.length s2)%nat.
Proof.
  induction s1 as [|c s1 IH]; [reflexivity|].
  rewrite append_cons. cbn [String.length]. now rewrite IH.
Qed.

Lemma occurs_append (c : ascii) (s1 s2 : string) :
  os_path.occurs c (s1 +:+ s2) = os_path.occurs c s1 || os_path.occurs c s2.
Proof.
  induction s1 as [|x s1 IH]; [reflexivity|].
  rewrite append_cons. cbn [os_path.occurs]. rewrite IH. now rewrite orb_assoc.
Qed.

Lemma drop_append (s1 s2 : string) :
  os_path.drop (String.length s1) (s1 +:+ s2) = s2.
Proof.
  induction s1 as [|c s1 IH]; [now destruct s2|].
  rewrite append_cons. exact IH.
Qed.

Lemma take_append (s1 s2 : string) :
  os_path.take (String.length s1) (s1 +:+ s2) = s1.
Proof.
  induction s1 as [|c s1 IH]; [now destruct s2|].
  rewrite append_cons. cbn [String.length os_path.take]. now rewrite IH.
Qed.

Lemma rfind_from_absent (c : ascii) (s : string) (i last : Z) :
  os_path.occurs c s = false -> os_path.rfind_from c s i last = last.
Proof.
  revert i last. induction s as [|x s IH]; intros i last; [reflexivity|].
  cbn [os_path.occurs os_path.rfind_from].
  intros H. apply orb_false_iff in H. destruct H as [Hx Hs].
  rewrite Hx. now apply IH.
Qed.

Lemma rfind_from_append (c : ascii) (s1 s2 : string) (i last : Z) :
  os_path.rfind_from c (s1 +:+ s2) i last
  = os_path.rfind_from c s2 (i + Z.of_nat (String.length s1))
      (os_path.rfind_from c s1 i last).
Proof.
  revert i last. induction s1 as [|x s1 IH]; intros i last.
  - rewrite append_nil. cbn [String.length os_path.rfind_from].
    now rewrite Z.add_0_r.
  - rewrite append_cons. cbn [String.length os_path.rfind_from].
    rewrite IH. f_equal. lia.
Qed.

(** The last occurrence of [c] in [s1 c s2] when [c] is not in [s2]. *)
Lemma rfind_last (c : ascii) (s1 s2 : string) :
  os_path.occurs c s2 = false ->
  os_path.rfind c (s1 +:+ String c s2) = Z.of_nat (String.length s1).
Proof.
  intros H. unfold os_path.rfind. rewrite rfind_from_append.
  cbn [os_path.rfind_from]. rewrite Ascii.eqb_refl.
  rewrite rfind_from_absent by exact H. lia.
Qed.

Lemma rfind_absent (c : ascii) (s : string) :
  os_path.occurs c s = false -> os_path.rfind c s = -1.
Proof. apply rfind_from_absent. Qed.

Lemma rfind_lower_bound (c : ascii) (s : string) : -1 <= os_path.rfind c s.
Proof.
  unfold os_path.rfind.
  assert (H : forall i last, -1 <= last -> 0 <= i ->
            -1 <= os_path.rfind_from c s i last).
  { induction s as [|x s IH]; intros i last Hl Hi; cbn [os_path.rfind_from];
      [exact Hl|].
    apply IH; [destruct (Ascii.eqb x c)|]; lia. }
  apply H; lia.
Qed.

Lemma get_append (s1 : string) (c : ascii) (s2 : string) :
  String.get (String.length s1) (s1 +:+ String c s2) = Some c.
Proof.
  induction s1 as [|x s1 IH]; [reflexivity|].
  rewrite append_cons. exact IH.
Qed.

Lemma has_stem_append (pre s rest : string) :
  os_path.has_stem (pre +:+ s +:+ rest) (String.length pre) (String.length s)
  = negb (os_path.all_dots s).
Proof.
  revert pre. induction s as [|c s IH]; intros pre; [reflexivity|].
  rewrite append_cons.
  cbn [String.length os_path.has_stem os_path.all_dots].
  rewrite get_append.
  destruct (Ascii.eqb c os_path.extsep) eqn:Hc; [|reflexivity].
  cbn [andb]. apply Ascii.eqb_eq in Hc. subst c.
  specialize (IH (pre +:+ String os_path.extsep EmptyString)).
  rewrite length_append in IH. cbn [String.length] in IH.
  replace (String.length pre + 1)%nat with (S (String.length pre)) in IH by lia.
  rewrite append_assoc, append_cons, append_nil in IH. exact IH.
Qed.

(** The base name of a path is what follows its last slash. *)
Lemma basename_after_slash (prefix base : string) :
  prefix = "" \/ (exists d, prefix = d +:+ "/") ->
  os_path.occurs os_path.sep base = false ->
  os_path.basename (prefix +:+ base) = base.
Proof.
  intros [->|[d ->]] Hbase; unfold os_path.basename.
  - rewrite append_nil. now rewrite rfind_absent.
  - rewrite append_assoc, append_cons, append_nil.
    change "/"%char with os_path.sep.
    rewrite rfind_last by exact Hbase.
    replace (Z.to_nat (Z.of_nat (String.length d) + 1))
      with (String.length (d +:+ String os_path.sep EmptyString))
      by (rewrite length_append; cbn [String.length]; lia).
    replace (d +:+ String os_path.sep base)
      with ((d +:+ String os_path.sep EmptyString) +:+ base)
      by (now rewrite append_assoc, append_cons, append_nil).
    apply drop_append.
Qed.

(** The stem of a base name [stem.ext]: the final extension is split off,
    provided the stem is more than a run of dots. *)
Lemma splitext_extension (stem ext : string) :
  os_path.occurs os_path.sep stem = false ->
  os_path.occurs os_path.sep ext = false ->
  os_path.occurs os_path.extsep ext = false ->
  os_path.all_dots stem = false ->
  os_path.splitext (stem +:+ "." +:+ ext) = (stem, "." +:+ ext).
Proof.
  intros Hs1 Hs2 Hdot Hstem. unfold os_path.splitext.
  rewrite append_cons, append_nil. change "."%char with os_path.extsep.
  rewrite (rfind_absent os_path.sep).
  2:{ rewrite occurs_append. cbn [os_path.occurs]. rewrite Hs1, Hs2. reflexivity. }
  rewrite rfind_last by exact Hdot.
  destruct (Z.gtb_spec (Z.of_nat (String.length stem)) (-1)); [|lia].
  replace (-1 + 1) with 0 by lia. rewrite Z.sub_0_r, Nat2Z.id.
  change (Z.to_nat 0) with (String.length EmptyString).
  pose proof (has_stem_append EmptyString stem (String os_path.extsep ext)) as Hloop.
  rewrite append_nil in Hloop. rewrite Hloop, Hstem. cbn [negb].
  now rewrite take_append, drop_append.
Qed.

(** A base name without a dot has no extension to lose. *)
Lemma splitext_no_extension (base : string) :
  os_path.occurs os_path.extsep base = false ->
  os_path.splitext base = (base, "").
Proof.
  intros H. unfold os_path.splitext. rewrite (rfind_absent os_path.extsep) by exact H.
  pose proof (rfind_lower_bound os_path.sep base) as Hsep.
  destruct (Z.gtb_spec (-1) (os_path.rfind os_path.sep base)); [lia|reflexivity].
Qed.

(** *** Adding layers *)

(** A constructor allocates one new layer object, which carries the name it
    was given, and touches nothing else. *)
Lemma construct_inv (kind : LayerKind) (file_path name : string)
    (w w1 : World) (a : ref) :
  construct kind file_path name w = (Ok a, w1) ->
  exists l : Layer,
    a = length (heap w)
    /\ w1 = mkWorld (project w) (heap w ++ [Some l])%list (provider w) (writer w)
    /\ l_name l = name
    /\ l_type l = kind_code kind.
Proof.
  destruct kind; unfold construct, QgsVectorLayer, QgsRasterLayer, bind, new_id.
  - destruct (provider w "ogr" file_path) as [[c fs feats|c]|];
      unfold alloc; intros H; inversion H; eexists; repeat split.
  - destruct (provider w "gdal" file_path) as [[c fs feats|c]|];
      unfold alloc; intros H; inversion H; eexists; repeat split.
Qed.

Lemma object_allocated (w : World) (l : Layer) :
  object (mkWorld (project w) (heap w ++ [Some l])%list (provider w) (writer w))
         (length (heap w)) = Some l.
Proof.
  unfold object. cbn [heap]. rewrite lookup_app_r by lia.
  now rewrite Nat.sub_diag.
Qed.

Lemma object_preserved (w : World) (l l0 : Layer) (b : ref) :
  object w b = Some l0 ->
  object (mkWorld (project w) (heap w ++ [Some l])%list (provider w) (writer w)) b
  = Some l0.
Proof.
  unfold object. cbn [heap]. intros H.
  destruct (heap w !! b) as [o|] eqn:Hb; [|discriminate].
  now rewrite (lookup_app_l_Some _ _ _ _ Hb).
Qed.

(** Both [add_*_layer] methods, step by step, once the constructor has
    returned the object [l] at [a]. *)
Lemma add_layer_run (kind : LayerKind) (file_path : string)
    (layer_name : option string) (w w1 : World) (a : ref) (l : Layer) :
  construct kind file_path (name_or_stem layer_name file_path) w = (Ok a, w1) ->
  object w1 a = Some l ->
  add_layer kind file_path layer_name w
  = if l_isValid l
    then match QgsProject_addMapLayer a w1 with
         | (Ok _, w2) => (Ok (Some a), w2)
         | (Raised _, w2) => (Ok None, w2)
         end
    else (Ok None, w1).
Proof.
  intros Hc Hl.
  assert (Hvalid : QgsMapLayer_isValid a w1 = (Ok (l_isValid l), w1)).
  { unfold QgsMapLayer_isValid, bind. now rewrite (deref_object _ _ _ Hl). }
  destruct kind; unfold add_layer, add_vector_layer, add_raster_layer;
    unfold construct in Hc; unfold try_except, bind at 1; rewrite Hc;
    unfold bind at 1; rewrite Hvalid;
    (destruct (l_isValid l); cbn [negb]; [|reflexivity]);
    unfold bind at 1;
    destruct (QgsProject_addMapLayer a w1) as [[[]|e] w2]; reflexivity.
Qed.

Lemma addMapLayer_fresh (w : World) (m : list (string * ref)) (a : ref)
    (l : Layer) :
  project w = Some m ->
  object w a = Some l ->
  has_key (l_id l) m = false ->
  QgsProject_addMapLayer a w
  = (Ok tt, mkWorld (Some (m ++ [(l_id l, a)])%list) (heap w) (provider w)
                  (writer w)).
Proof.
  intros Hm Hl Hfresh. unfold QgsProject_addMapLayer, bind.
  rewrite (mapLayers_project _ _ Hm), (deref_object _ _ _ Hl).
  now rewrite Hfresh.
Qed.

(** C8.  [add_vector_layer] has the toolkit construct a vector layer from
    the path.  If the toolkit reports the layer invalid the method returns
    [None].  If it reports the layer valid, and the id it gave the layer is
    not in use, the method enters the layer in the layer map of the project
    under that id, after the layers already there, and returns that very
    layer. *)
Theorem add_vector_layer_registers (w w1 : World) (m : list (string * ref))
    (file_path : string) (layer_name : option string) (a : ref) (l : Layer) :
  project w = Some m ->
  QgsVectorLayer file_path (name_or_stem layer_name file_path) "ogr" w
  = (Ok a, w1) ->
  object w1 a = Some l ->
  has_key (l_id l) m = false ->
  l_type l = VectorLayer
  /\ if l_isValid l
     then exists w2 : World,
            add_vector_layer file_path layer_name w = (Ok (Some a), w2)
            /\ project w2 = Some (m ++ [(l_id l, a)])%list
            /\ object w2 a = Some l
     else add_vector_layer file_path layer_name w = (Ok None, w1).
Proof.
  intros Hm Hc Hl Hfresh.
  pose proof (add_layer_run Vector file_path layer_name w w1 a l Hc Hl) as Hrun.
  cbn [add_layer] in Hrun.
  destruct (construct_inv Vector _ _ _ _ _ Hc) as [l' [Ha [Hw1 [_ Ht]]]].
  assert (l' = l) as ->.
  { subst a w1. rewrite object_allocated in Hl. congruence. }
  split; [exact Ht|].
  destruct (l_isValid l); [|exact Hrun].
  assert (Hm1 : project w1 = Some m) by (now subst w1).
  rewrite (addMapLayer_fresh w1 m a l Hm1 Hl Hfresh) in Hrun.
  eexists. split; [exact Hrun|]. split; [reflexivity|exact Hl].
Qed.

(** C9.  When the toolkit reports the layer it has constructed invalid,
    [add_vector_layer] and [add_raster_layer] return [None]; the layer map
    of the project is the one it was before the call, and so is every layer
    object that existed before the call. *)
Theorem invalid_layer_is_not_registered (kind : LayerKind) (w w1 : World)
    (file_path : string) (layer_name : option string) (a : ref) (l : Layer) :
  construct kind file_path (name_or_stem layer_name file_path) w = (Ok a, w1) ->
  object w1 a = Some l ->
  l_isValid l = false ->
  exists w' : World,
    add_layer kind file_path layer_name w = (Ok None, w')
    /\ project w' = project w
    /\ forall b l0, object w b = Some l0 -> object w' b = Some l0.
Proof.
  intros Hc Hl Hinvalid.
  pose proof (add_layer_run kind file_path layer_name w w1 a l Hc Hl) as Hrun.
  rewrite Hinvalid in Hrun. exists w1. split; [exact Hrun|].
  destruct (construct_inv kind _ _ _ _ _ Hc) as [l' [_ [-> _]]].
  split; [reflexivity|]. intros b l0. apply object_preserved.
Qed.

(** A valid layer built by the constructor under the name the method
    computes is entered in the layer map and returned, for both kinds. *)
Lemma add_layer_enters (kind : LayerKind) (w w1 : World)
    (m : list (string * ref)) (file_path : string)
    (layer_name : option string) (a : ref) (l : Layer) :
  project w = Some m ->
  construct kind file_path (name_or_stem layer_name file_path) w = (Ok a, w1) ->
  object w1 a = Some l ->
  l_isValid l = true ->
  has_key (l_id l) m = false ->
  exists w2 : World,
    add_layer kind file_path layer_name w = (Ok (Some a), w2)
    /\ project w2 = Some (m ++ [(l_id l, a)])%list
    /\ object w2 a = Some l
    /\ l_name l = name_or_stem layer_name file_path.
Proof.
  intros Hm Hc Hl Hvalid Hfresh.
  pose proof (add_layer_run kind file_path layer_name w w1 a l Hc Hl) as Hrun.
  rewrite Hvalid in Hrun.
  destruct (construct_inv kind _ _ _ _ _ Hc) as [l' [Ha [Hw1 [Hname _]]]].
  assert (l' = l) as ->.
  { subst a w1. rewrite object_allocated in Hl. congruence. }
  assert (Hm1 : project w1 = Some m) by (now subst w1).
  rewrite (addMapLayer_fresh w1 m a l Hm1 Hl Hfresh) in Hrun.
  eexists. split; [exact Hrun|]. split; [reflexivity|].
  split; [exact Hl|exact Hname].
Qed.

(** C10.  Called without a name, [add_vector_layer] and [add_raster_layer]
    call the layer after the path: for a path [prefix stem.ext], read by
    the POSIX rules of [os.path], where the prefix is empty or ends with a
    slash, the stem holds no slash and is more than a run of dots, and the
    extension holds neither slash nor dot, the method has the toolkit
    build the layer under the name [stem].  If the layer the toolkit
    builds from the path under that name is valid (and its id free), the
    method returns that very layer and enters it in the layer map of the
    project, and the name of the layer so registered is [stem]. *)
Theorem default_name_is_stem (kind : LayerKind) (w w1 : World)
    (m : list (string * ref)) (prefix stem ext : string) (a : ref)
    (l : Layer) :
  prefix = "" \/ (exists d, prefix = d +:+ "/") ->
  os_path.occurs os_path.sep stem = false ->
  os_path.all_dots stem = false ->
  os_path.occurs os_path.sep ext = false ->
  os_path.occurs os_path.extsep ext = false ->
  project w = Some m ->
  construct kind (prefix +:+ stem +:+ "." +:+ ext) stem w = (Ok a, w1) ->
  object w1 a = Some l ->
  l_isValid l = true ->
  has_key (l_id l) m = false ->
  exists w2 : World,
    add_layer kind (prefix +:+ stem +:+ "." +:+ ext) None w = (Ok (Some a), w2)
    /\ project w2 = Some (m ++ [(l_id l, a)])%list
    /\ object w2 a = Some l
    /\ l_name l = stem.
Proof.
  intros Hprefix Hs1 Hstem Hs2 Hdot Hm Hc Hl Hvalid Hfresh.
  assert (Hname : name_or_stem None (prefix +:+ stem +:+ "." +:+ ext) = stem).
  { cbn [name_or_stem]. rewrite basename_after_slash; [|exact Hprefix|].
    - now rewrite splitext_extension.
    - rewrite occurs_append, Hs1. cbn [orb].
      rewrite append_cons, append_nil. cbn [os_path.occurs]. now rewrite Hs2. }
  pose proof (add_layer_enters kind w w1 m (prefix +:+ stem +:+ "." +:+ ext)
                None a l Hm) as Henters.
  rewrite Hname in Henters.
  exact (Henters Hc Hl Hvalid Hfresh).
Qed.

(** ** Further properties of the facade *)

(** *** Reading features, fields and the reference system *)

(** X1.  On a vector layer resolved by name, a limit above zero gives the
    first [limit] features of the layer, all of them when the layer has no
    more than [limit], and no limit gives them all; the order is that of the
    layer and the world is untouched. *)
Theorem get_layer_features_usable_limit (w : World) (layer_name : string)
    (a : ref) (l : Layer) (limit : option Z) :
  get_layer_by_name layer_name w = (Ok (Some a), w) ->
  object w a = Some l ->
  l_type l = VectorLayer ->
  match limit with Some n => 0 < n | None => True end ->
  let wanted :=
    match limit with
    | Some n => firstn (Z.to_nat n) (l_features l)
    | None => l_features l
    end in
  get_layer_features layer_name limit w = (Ok wanted, w)
  /\ length wanted
     = match limit with
       | Some n => Nat.min (Z.to_nat n) (length (l_features l))
       | None => length (l_features l)
       end.
Proof.
  intros Hget Hl Ht Hlimit wanted.
  pose proof (get_layer_features_prefix w layer_name a l limit Hget Hl Ht) as H.
  destruct limit as [n|]; subst wanted.
  - split; [now apply H|]. apply length_take.
  - split; [exact H|reflexivity].
Qed.

(** X2.  A limit below zero gives no feature at all. *)
Theorem get_layer_features_negative_limit (w : World) (layer_name : string)
    (a : ref) (l : Layer) (n : Z) :
  get_layer_by_name layer_name w = (Ok (Some a), w) ->
  object w a = Some l ->
  l_type l = VectorLayer ->
  n < 0 ->
  get_layer_features layer_name (Some n) w = (Ok [], w).
Proof.
  intros Hget Hl Ht Hn. unfold get_layer_features. resolve_with Hget.
  unfold bind at 1. rewrite (type_object _ _ _ Hl), Ht. cbn [Z.eqb VectorLayer negb].
  unfold bind, QgsVectorLayer_getFeatures, vector_only, bind.
  rewrite (deref_object _ _ _ Hl), Ht. cbn [Z.eqb VectorLayer]. unfold ret.
  destruct (l_features l) as [|f rest]; [reflexivity|].
  cbn [get_layer_features_loop]. unfold limit_reached.
  destruct (Z.eqb_spec n 0); [lia|].
  destruct (Z.geb_spec 0 n); [reflexivity|lia].
Qed.

(** X3.  On a vector layer resolved by name, [get_layer_attributes] returns
    the names of the fields of the layer, in the order of the schema, and
    changes nothing. *)
Theorem get_layer_attributes_field_names (w : World) (layer_name : string)
    (a : ref) (l : Layer) :
  get_layer_by_name layer_name w = (Ok (Some a), w) ->
  object w a = Some l ->
  l_type l = VectorLayer ->
  get_layer_attributes layer_name w = (Ok (map field_name (l_fields l)), w).
Proof.
  intros Hget Hl Ht. unfold get_layer_attributes. resolve_with Hget.
  unfold bind at 1. rewrite (type_object _ _ _ Hl), Ht. cbn [Z.eqb VectorLayer negb].
  unfold bind, QgsVectorLayer_fields, vector_only, bind.
  rewrite (deref_object _ _ _ Hl), Ht. reflexivity.
Qed.

(** What a successful lookup has read. *)
Lemma get_layer_by_name_loop_named (n : string) (vs : list ref) (w w' : World)
    (a : ref) :
  get_layer_by_name_loop n vs w = (Ok (Some a), w') -> named w n a.
Proof.
  induction vs as [|b vs IH]; cbn [get_layer_by_name_loop]; [discriminate|].
  unfold bind at 1, QgsMapLayer_name, bind, deref.
  destruct (heap w !! b) as [[l|]|] eqn:Hb; try discriminate.
  unfold ret at 1. destruct (String.eqb_spec (l_name l) n) as [Hn|Hn]; [|exact IH].
  unfold ret. intros H. inversion H; subst. exists l.
  unfold object. now rewrite Hb.
Qed.

Lemma get_layer_by_name_named (n : string) (w w' : World) (a : ref) :
  get_layer_by_name n w = (Ok (Some a), w') -> named w n a.
Proof.
  unfold get_layer_by_name, bind at 1, QgsProject_mapLayers.
  destruct (project w); [|discriminate].
  apply get_layer_by_name_loop_named.
Qed.

(** X4.  [get_layer_crs] has no guard on the kind of layer: whatever
    [get_layer_by_name] resolves the name to, vector layer or not, it
    returns the authority id of the reference system of that layer, and
    [None] when the name resolves to nothing. *)
Theorem get_layer_crs_of_any_layer (w : World) (layer_name : string)
    (r : option ref) :
  get_layer_by_name layer_name w = (Ok r, w) ->
  get_layer_crs layer_name w
  = (Ok (match r with
         | Some a => (fun l => crs_authid (l_crs l)) <$> object w a
         | None => None
         end), w)
  /\ match r with Some a => is_Some (object w a) | None => True end.
Proof.
  intros Hget. unfold get_layer_crs. resolve_with Hget.
  destruct r as [a|]; [|split; [reflexivity|exact I]].
  destruct (get_layer_by_name_named _ _ _ _ Hget) as [l [Hl _]].
  unfold bind, QgsMapLayer_crs, bind. rewrite (deref_object _ _ _ Hl), Hl.
  split; [reflexivity|now exists l].
Qed.

(** *** Listing *)

Lemma bind_ok {A B : Type} (c : @M Value A) (k : A -> @M Value B)
    (w w' : World) (a : A) :
  c w = (Ok a, w') -> bind c k w = k a w'.
Proof. intros H. unfold bind. now rewrite H. Qed.

Lemma isValid_object (w : World) (a : ref) (l : Layer) :
  object w a = Some l -> QgsMapLayer_isValid a w = (Ok (l_isValid l), w).
Proof.
  intros H. unfold QgsMapLayer_isValid, bind. now rewrite (deref_object _ _ _ H).
Qed.

Lemma crs_object (w : World) (a : ref) (l : Layer) :
  object w a = Some l -> QgsMapLayer_crs a w = (Ok (l_crs l), w).
Proof.
  intros H. unfold QgsMapLayer_crs, bind. now rewrite (deref_object _ _ _ H).
Qed.

Lemma list_layers_loop_summaries (w : World) (m : list (string * ref))
    (acc : list LayerInfo) :
  live w m ->
  exists infos, list_layers_loop m acc w = (Ok (acc ++ infos)%list, w)
                /\ Forall2 (summarises w) m infos.
Proof.
  revert acc. induction m as [|[k a] m IH]; intros acc Hlive.
  - exists []. split; [now rewrite app_nil_r|constructor].
  - inversion Hlive as [|e m' [l Hl] Hrest]; subst. cbn [snd] in Hl.
    destruct (IH (acc ++ [layer_summary k l])%list Hrest) as [infos [Hrun Hall]].
    exists (layer_summary k l :: infos). split.
    + cbn [list_layers_loop].
      rewrite (bind_ok _ _ _ _ _ (name_object _ _ _ Hl)).
      rewrite (bind_ok _ _ _ _ _ (type_object _ _ _ Hl)).
      rewrite (bind_ok _ _ _ _ _ (isValid_object _ _ _ Hl)).
      rewrite (bind_ok _ _ _ _ _ (crs_object _ _ _ Hl)).
      unfold layer_summary in Hrun |- *.
      destruct (crs_bool (l_crs l)); cbv iota.
      * assert (Hid : bind (QgsMapLayer_crs a) (fun c' => ret (crs_authid c')) w
                      = (Ok (crs_authid (l_crs l)), w)).
        { rewrite (bind_ok _ _ _ _ _ (crs_object _ _ _ Hl)). reflexivity. }
        rewrite (bind_ok _ _ _ _ _ Hid), Hrun. now rewrite <- app_assoc.
      * assert (Hid : @ret Value string "Unknown" w = (Ok "Unknown", w))
          by reflexivity.
        rewrite (bind_ok _ _ _ _ _ Hid), Hrun. now rewrite <- app_assoc.
    + constructor; [|exact Hall]. exists l. split; [exact Hl|reflexivity].
Qed.

(** X5.  In a project whose layer map holds live layers, [list_layers]
    returns one summary for each entry of the map, in the order of the map:
    the key, and the name, type code, validity and reference system of the
    layer, the latter written "Unknown" when the reference system object
    counts as false.  It changes nothing. *)
Theorem list_layers_summaries (w : World) (m : list (string * ref)) :
  project w = Some m ->
  live w m ->
  exists infos, list_layers w = (Ok infos, w)
                /\ Forall2 (summarises w) m infos
                /\ length infos = length m.
Proof.
  intros Hm Hlive. unfold list_layers.
  rewrite (bind_ok _ _ _ _ _ (mapLayers_project _ _ Hm)).
  destruct (list_layers_loop_summaries w m [] Hlive) as [infos [Hrun Hall]].
  exists infos. split; [exact Hrun|]. split; [exact Hall|].
  symmetry. now apply Forall2_length in Hall.
Qed.

(** *** Export *)

(** X6.  On a vector layer resolved by name, [export_vector_layer] returns
    [True] only when what the writer hands back is the bare code [NoError].
    When the writer hands back a pair of code and message, as the QGIS 3
    binding does, the comparison with [NoError] fails and the method
    returns [False], also for a write that succeeded; it returns [False]
    as well for any other bare code and when the writer raises. *)
Theorem export_vector_layer_verdict (w : World)
    (layer_name output_path driver_name : string) (a : ref) (l : Layer) :
  get_layer_by_name layer_name w = (Ok (Some a), w) ->
  object w a = Some l ->
  l_type l = VectorLayer ->
  export_vector_layer layer_name output_path driver_name w
  = (Ok (match writer w l output_path driver_name with
         | Ok (WriterError code) => code =? NoError
         | Ok (WriterErrorAndMessage _ _) => false
         | Raised _ => false
         end), w).
Proof.
  intros Hget Hl Ht. unfold export_vector_layer. resolve_with Hget.
  rewrite (bind_ok _ _ _ _ _ (type_object _ _ _ Hl)).
  rewrite Ht. cbn [Z.eqb VectorLayer negb].
  rewrite (bind_ok _ _ _ _ _ (crs_object _ _ _ Hl)).
  unfold bind, QgsVectorFileWriter_writeAsVectorFormat, bind.
  rewrite (deref_object _ _ _ Hl).
  destruct (writer w l output_path driver_name) as [[code|code message]|e];
    try reflexivity.
  cbn [equals_NoError]. now destruct (code =? NoError).
Qed.

(** *** Methods that only read *)

Lemma ret_read_only {A : Type} (a : A) : @read_only Value _ (@ret Value A a).
Proof. intros w. reflexivity. Qed.

Lemma raise_read_only {A : Type} (e : Exception) : @read_only Value _ (@raise Value A e).
Proof. intros w. reflexivity. Qed.

Lemma bind_read_only {A B : Type} (c : @M Value A) (k : A -> @M Value B) :
  read_only c -> (forall a, @read_only Value _ (k a)) -> @read_only Value _ (bind c k).
Proof.
  intros Hc Hk w. unfold bind. specialize (Hc w).
  destruct (c w) as [[a|e] w1]; cbn [snd] in Hc; subst w1; [apply Hk|reflexivity].
Qed.

Lemma try_except_read_only {A : Type} (body : @M Value A)
    (handler : Exception -> @M Value A) :
  read_only body -> (forall e, @read_only Value _ (handler e)) ->
  @read_only Value _ (try_except body handler).
Proof.
  intros Hb Hh w. unfold try_except. specialize (Hb w).
  destruct (body w) as [[a|e] w1]; cbn [snd] in Hb; subst w1;
    [reflexivity|apply Hh].
Qed.

Lemma deref_read_only (a : ref) : @read_only Value _ (deref a).
Proof. intros w. unfold deref. now destruct (heap w !! a) as [[l|]|]. Qed.

Lemma mapLayers_read_only : @read_only Value _ (@QgsProject_mapLayers Value).
Proof. intros w. unfold QgsProject_mapLayers. now destruct (project w). Qed.

(** Reduces a goal [read_only c] to the loops inside [c]. *)
Ltac read_only_steps :=
  repeat first
    [ apply ret_read_only
    | apply raise_read_only
    | apply deref_read_only
    | apply mapLayers_read_only
    | apply try_except_read_only; [|intros ?]
    | apply bind_read_only; [|intros ?]
    | match goal with
      | |- @read_only _ _ (match ?x with _ => _ end) => destruct x
      end ].

Lemma accessors_read_only (a : ref) :
  @read_only Value _ (QgsMapLayer_name a) /\ @read_only Value _ (QgsMapLayer_type a)
  /\ @read_only Value _ (QgsMapLayer_isValid a) /\ @read_only Value _ (QgsMapLayer_crs a)
  /\ @read_only Value _ (QgsVectorLayer_fields a)
  /\ @read_only Value _ (QgsVectorLayer_getFeatures a).
Proof.
  unfold QgsMapLayer_name, QgsMapLayer_type, QgsMapLayer_isValid,
    QgsMapLayer_crs, QgsVectorLayer_fields, QgsVectorLayer_getFeatures,
    vector_only.
  repeat split; read_only_steps.
Qed.

Lemma get_layer_by_name_is_read_only (n : string) :
  @read_only Value _ (get_layer_by_name n).
Proof.
  intros w. destruct (get_layer_by_name n w) as [r w'] eqn:H.
  exact (get_layer_by_name_read_only _ _ _ _ H).
Qed.

Lemma list_layers_loop_read_only (m : list (string * ref))
    (acc : list LayerInfo) :
  @read_only Value _ (list_layers_loop m acc).
Proof.
  revert acc. induction m as [|[k a] m IH]; intros acc;
    cbn [list_layers_loop]; [apply ret_read_only|].
  destruct (accessors_read_only a) as [Hn [Ht [Hv [Hc _]]]].
  apply bind_read_only; [exact Hn|intros n].
  apply bind_read_only; [exact Ht|intros t].
  apply bind_read_only; [exact Hv|intros v].
  apply bind_read_only; [exact Hc|intros c].
  apply bind_read_only; [|intros i; apply IH].
  destruct (crs_bool c); [|apply ret_read_only].
  apply bind_read_only; [exact Hc|intros c'; apply ret_read_only].
Qed.

Lemma filter_features_loop_read_only (attribute : string) (value : Value)
    (iterator acc : list QgsFeature) :
  @read_only Value _ (filter_features_loop py_eq attribute value iterator acc).
Proof.
  revert acc. induction iterator as [|f rest IH]; intros acc;
    cbn [filter_features_loop]; [apply ret_read_only|].
  apply bind_read_only.
  - unfold QgsFeature_attribute.
    destruct (lookup_attribute attribute (feature_attributes f));
      [apply ret_read_only|apply raise_read_only].
  - intros v. destruct (py_eq v value); apply IH.
Qed.

Lemma writeAsVectorFormat_read_only (a : ref) (fileName fileEncoding : string)
    (c : QgsCoordinateReferenceSystem) (driverName : string) :
  @read_only Value _ (QgsVectorFileWriter_writeAsVectorFormat (Value:=Value)
               a fileName fileEncoding c driverName).
Proof.
  unfold QgsVectorFileWriter_writeAsVectorFormat.
  apply bind_read_only; [apply deref_read_only|]. intros l w. reflexivity.
Qed.

(** X7.  The methods that query the project leave the world exactly as they
    found it, in every world and whether the toolkit raises or not: name
    lookup, listing, features, field names, filtering, reference system and
    the facade's part of an export. *)
Theorem queries_change_nothing (layer_name : string) (limit : option Z)
    (attribute : string) (value : Value) (output_path driver_name : string) :
  @read_only Value _ (get_layer_by_name layer_name)
  /\ @read_only Value _ (@list_layers Value)
  /\ @read_only Value _ (get_layer_features layer_name limit)
  /\ @read_only Value _ (get_layer_attributes layer_name)
  /\ @read_only Value _ (filter_features py_eq layer_name attribute value)
  /\ @read_only Value _ (get_layer_crs layer_name)
  /\ @read_only Value _ (export_vector_layer layer_name output_path driver_name).
Proof.
  pose proof (get_layer_by_name_is_read_only layer_name) as Hget.
  assert (Hacc := accessors_read_only).
  unfold list_layers, get_layer_features, get_layer_attributes,
    filter_features, get_layer_crs, export_vector_layer.
  repeat split; try exact Hget.
  - apply bind_read_only; [apply mapLayers_read_only|].
    intros m. apply list_layers_loop_read_only.
  - apply try_except_read_only; [|intros e; apply ret_read_only].
    apply bind_read_only; [exact Hget|]. intros [a|]; [|apply ret_read_only].
    destruct (Hacc a) as [_ [Ht [_ [_ [_ Hf]]]]].
    apply bind_read_only; [exact Ht|]. intros t.
    destruct (negb (t =? 0)); [apply ret_read_only|].
    apply bind_read_only; [exact Hf|]. intros it. apply ret_read_only.
  - apply try_except_read_only; [|intros e; apply ret_read_only].
    apply bind_read_only; [exact Hget|]. intros [a|]; [|apply ret_read_only].
    destruct (Hacc a) as [_ [Ht [_ [_ [Hf _]]]]].
    apply bind_read_only; [exact Ht|]. intros t.
    destruct (negb (t =? 0)); [apply ret_read_only|].
    apply bind_read_only; [exact Hf|]. intros fs. apply ret_read_only.
  - apply try_except_read_only; [|intros e; apply ret_read_only].
    apply bind_read_only; [exact Hget|]. intros [a|]; [|apply ret_read_only].
    destruct (Hacc a) as [_ [Ht [_ [_ [_ Hf]]]]].
    apply bind_read_only; [exact Ht|]. intros t.
    destruct (negb (t =? 0)); [apply ret_read_only|].
    apply bind_read_only; [exact Hf|]. intros it.
    apply filter_features_loop_read_only.
  - apply try_except_read_only; [|intros e; apply ret_read_only].
    apply bind_read_only; [exact Hget|]. intros [a|]; [|apply ret_read_only].
    destruct (Hacc a) as [_ [_ [_ [Hc _]]]].
    apply bind_read_only; [exact Hc|]. intros c. apply ret_read_only.
  - apply try_except_read_only; [|intros e; apply ret_read_only].
    apply bind_read_only; [exact Hget|]. intros [a|]; [|apply ret_read_only].
    destruct (Hacc a) as [_ [Ht [_ [Hc _]]]].
    apply bind_read_only; [exact Ht|]. intros t.
    destruct (negb (t =? 0)); [apply ret_read_only|].
    apply bind_read_only; [exact Hc|]. intros c.
    apply bind_read_only; [apply writeAsVectorFormat_read_only|]. intros error.
    destruct (equals_NoError error); apply ret_read_only.
Qed.

(** *** Selection, continued *)

Lemma same_but_selections_refl (w : World) : same_but_selections w w.
Proof. split; reflexivity. Qed.

Lemma store_selection_frame (w : World) (a : ref) (l : Layer) (ids : gset Z) :
  object w a = Some l ->
  same_but_selections w (store a (set_selection ids l) w).2.
Proof.
  intros Hl. split; [reflexivity|]. intros b.
  rewrite (object_store w a b l _ Hl).
  destruct (decide (a = b)) as [<-|]; [|reflexivity]. now rewrite Hl.
Qed.

Lemma vector_only_inv (name : string) (a : ref) (w w' : World) (l : Layer) :
  vector_only name a w = (Ok l, w') -> w' = w /\ object w a = Some l.
Proof.
  unfold vector_only, bind, deref, object.
  destruct (heap w !! a) as [[l'|]|]; try discriminate.
  unfold ret at 1. destruct (l_type l' =? VectorLayer); [|discriminate].
  unfold ret. intros H. inversion H. auto.
Qed.

Lemma set_selection_method_frame (name : string) (a : ref) (ids : gset Z)
    (w : World) :
  same_but_selections w
    (bind (vector_only name a) (fun l => store a (set_selection ids l)) w).2.
Proof.
  unfold bind at 1. destruct (vector_only name a w) as [[l|e] w1] eqn:Hv.
  - destruct (vector_only_inv _ _ _ _ _ Hv) as [-> Hl].
    now apply store_selection_frame.
  - pose proof (bind_read_only (deref a)
      (fun l => if l_type l =? VectorLayer then ret l else raise (AttributeError name))
      (deref_read_only a)) as Hro.
    assert (Hw : (vector_only name a w).2 = w).
    { apply Hro. intros l0. destruct (l_type l0 =? VectorLayer);
        [apply ret_read_only|apply raise_read_only]. }
    rewrite Hv in Hw. cbn [snd] in Hw |- *. subst w1.
    apply same_but_selections_refl.
Qed.

(** X8.  [select_features] and [clear_selection] never change the layer map
    of the project, nor anything of a layer object but its selection: name,
    id, type, validity, reference system, fields and features of every layer
    are the same after the call, in every world and for every outcome. *)
Theorem selection_methods_touch_selections_only (w : World)
    (layer_name : string) (feature_ids : list Z) :
  same_but_selections w (select_features layer_name feature_ids w).2
  /\ same_but_selections w (clear_selection layer_name w).2.
Proof.
  pose proof (get_layer_by_name_is_read_only layer_name w) as Hget.
  assert (Hmethod : forall (method : ref -> @M Value unit),
    (forall a, same_but_selections w (method a w).2) ->
    same_but_selections w
      (try_except
         (let* layer := get_layer_by_name layer_name in
          match layer with
          | None => ret false
          | Some layer =>
              let* t := QgsMapLayer_type layer in
              if negb (t =? 0) then ret false
              else let* _ := method layer in ret true
          end)
         (fun e => ret false) w).2).
  { intros method Hm. unfold try_except, bind at 1.
    destruct (get_layer_by_name layer_name w) as [[[a|]|e] w1];
      cbn [snd] in Hget; subst w1; try apply same_but_selections_refl.
    destruct (accessors_read_only a) as [_ [Ht _]]. specialize (Ht w).
    unfold bind at 1.
    destruct (QgsMapLayer_type a w) as [[t|e] w1]; cbn [snd] in Ht; subst w1;
      try apply same_but_selections_refl.
    destruct (negb (t =? 0)); [apply same_but_selections_refl|].
    unfold bind. specialize (Hm a).
    destruct (method a w) as [[[]|e] w2]; exact Hm. }
  split.
  - apply (Hmethod (fun a => QgsVectorLayer_selectByIds a feature_ids)).
    intros a. apply set_selection_method_frame.
  - apply (Hmethod QgsVectorLayer_removeSelection).
    intros a. apply set_selection_method_frame.
Qed.

(** X9.  A second [select_features] replaces the selection made by the
    first: after selecting [first] and then [second] on a vector layer
    resolved by name, the selection of the layer is the set of the ids of
    [second]. *)
Theorem select_features_replaces_selection (w : World) (layer_name : string)
    (a : ref) (l : Layer) (first second : list Z) :
  get_layer_by_name layer_name w = (Ok (Some a), w) ->
  object w a = Some l ->
  l_type l = VectorLayer ->
  exists (w2 : World) (l2 : Layer),
    (let* _ := select_features layer_name first in
     select_features layer_name second) w = (Ok true, w2)
    /\ object w2 a = Some l2
    /\ l_selectedFeatureIds l2 = list_to_set second.
Proof.
  intros Hget Hl Ht.
  set (l1 := set_selection (list_to_set first) l).
  set (w1 := (store a l1 w).2).
  destruct (set_selection_run w a l (list_to_set first) Hl) as [Hl1 [Hp1 Hn1]].
  fold l1 in Hl1, Hp1, Hn1. fold w1 in Hl1, Hp1, Hn1.
  pose proof (get_layer_by_name_names _ _ w1 _ Hp1 Hn1 Hget) as Hget1.
  pose proof (select_features_run w layer_name a l first Hget Hl Ht) as Hsel.
  fold l1 in Hsel. fold w1 in Hsel.
  pose proof (select_features_run w1 layer_name a l1 second Hget1 Hl1 Ht) as Hsel2.
  destruct (set_selection_run w1 a l1 (list_to_set second) Hl1) as [Hl2 _].
  eexists. eexists. split; [|split; [exact Hl2|reflexivity]].
  rewrite (bind_ok _ _ _ _ _ Hsel). exact Hsel2.
Qed.

(** *** Removal, continued *)

Lemma get_layer_by_name_found (w : World) (n : string)
    (xs ys : list (string * ref)) (k : string) (b : ref) :
  project w = Some (xs ++ (k, b) :: ys)%list ->
  Forall (fun e => exists l, object w e.2 = Some l /\ l_name l <> n) xs ->
  named w n b ->
  get_layer_by_name n w = (Ok (Some b), w).
Proof.
  intros Hm Hxs [lb [Hlb Hnb]].
  unfold get_layer_by_name. rewrite (bind_ok _ _ _ _ _ (mapLayers_project _ _ Hm)).
  clear Hm. induction Hxs as [|[k' a] xs [l [Hl Hn]] _ IH].
  - cbn [app map snd get_layer_by_name_loop].
    rewrite (bind_ok _ _ _ _ _ (name_object _ _ _ Hlb)).
    apply String.eqb_eq in Hnb. now rewrite Hnb.
  - cbn [app map snd get_layer_by_name_loop]. cbn [snd] in Hl.
    rewrite (bind_ok _ _ _ _ _ (name_object _ _ _ Hl)).
    apply String.eqb_neq in Hn. rewrite Hn. exact IH.
Qed.

Lemma consistent_In (w : World) (m : list (string * ref)) (e : string * ref) :
  consistent w m -> In e m -> exists l, object w e.2 = Some l /\ l_id l = e.1.
Proof.
  unfold consistent. rewrite Forall_forall. intros H He.
  apply H. now apply list_elem_of_In.
Qed.

(** X10.  When two layers share a name, [remove_layer] removes the first of
    them only, and the name then resolves to the second. *)
Theorem remove_layer_uncovers_namesake (w : World) (layer_name : string)
    (pre mid post : list (string * ref)) (k1 k2 : string) (a b : ref) :
  project w = Some (pre ++ (k1, a) :: mid ++ (k2, b) :: post)%list ->
  consistent w (pre ++ (k1, a) :: mid ++ (k2, b) :: post)%list ->
  Forall (fun e => ~ named w layer_name e.2) (pre ++ mid)%list ->
  named w layer_name a ->
  named w layer_name b ->
  k1 <> k2 ->
  exists w',
    remove_layer layer_name w = (Ok true, w')
    /\ get_layer_by_name layer_name w' = (Ok (Some b), w')
    /\ ~ In k1 (map fst (default [] (project w'))).
Proof.
  intros Hm Hcons Hnone Ha Hb Hk.
  set (m := (pre ++ (k1, a) :: mid ++ (k2, b) :: post)%list) in *.
  apply Forall_app in Hnone. destruct Hnone as [Hpre Hmid].
  assert (Hina : In (k1, a) m) by (unfold m; apply in_or_app; right; now left).
  assert (Hinb : In (k2, b) m).
  { unfold m. apply in_or_app. right. right. apply in_or_app. right. now left. }
  destruct (consistent_In w m _ Hcons Hina) as [la [Hla Hida]].
  cbn [fst snd] in Hla, Hida.
  assert (Hget : get_layer_by_name layer_name w = (Ok (Some a), w)).
  { apply (get_layer_by_name_found w layer_name pre
             (mid ++ (k2, b) :: post)%list k1 a Hm); [|exact Ha].
    apply Forall_forall. intros e He.
    assert (Hem : In e m).
    { unfold m. apply in_or_app. left. now apply list_elem_of_In. }
    destruct (consistent_In w m e Hcons Hem) as [l [Hl _]].
    exists l. split; [exact Hl|]. intros Hn.
    rewrite Forall_forall in Hpre. apply (Hpre e He). now exists l. }
  exists (after_removal w m la).
  split; [now apply (remove_layer_run w m layer_name a la)|].
  pose (keep := fun e : string * ref => negb (String.eqb e.1 (l_id la))).
  assert (Hkept : List.filter keep m
                  = (List.filter keep (pre ++ mid) ++ (k2, b)
                       :: List.filter keep post)%list).
  { assert (Hk1 : keep (k1, a) = false).
    { unfold keep. cbn [fst]. now rewrite Hida, String.eqb_refl. }
    assert (Hk2 : keep (k2, b) = true).
    { unfold keep. cbn [fst]. rewrite Hida.
      apply negb_true_iff, String.eqb_neq. congruence. }
    unfold m. rewrite (List.filter_app keep pre). cbn [List.filter].
    rewrite Hk1, (List.filter_app keep mid). cbn [List.filter].
    rewrite Hk2, (List.filter_app keep pre mid). now rewrite <- app_assoc. }
  split.
  - apply (get_layer_by_name_found _ layer_name
             (List.filter keep (pre ++ mid)) (List.filter keep post) k2 b).
    + unfold after_removal. cbn [project]. fold keep. now rewrite Hkept.
    + apply Forall_forall. intros e He. apply list_elem_of_In in He.
      apply filter_In in He. destruct He as [He Hke].
      unfold keep in Hke. apply negb_true_iff, String.eqb_neq in Hke.
      assert (Hem : In e m).
      { unfold m. apply in_app_or in He. apply in_or_app.
        destruct He as [He|He]; [now left|]. right. right.
        apply in_or_app. now left. }
      rewrite (kept_objects w m la e Hcons Hem Hke).
      destruct (consistent_In w m e Hcons Hem) as [l [Hl _]].
      exists l. split; [exact Hl|]. intros Hn.
      assert (Hno : ~ named w layer_name e.2).
      { apply in_app_or in He. destruct He as [He|He].
        - rewrite Forall_forall in Hpre. apply Hpre. now apply list_elem_of_In.
        - rewrite Forall_forall in Hmid. apply Hmid. now apply list_elem_of_In. }
      apply Hno. now exists l.
    + destruct Hb as [lb [Hlb Hnb]]. exists lb. split; [|exact Hnb].
      rewrite <- Hlb. apply (kept_objects w m la (k2, b) Hcons Hinb).
      cbn [fst]. congruence.
  - unfold after_removal. cbn [project default]. intros Hin.
    apply in_map_iff in Hin. destruct Hin as [e [He Hf]].
    apply filter_In in Hf. destruct Hf as [_ Hf].
    apply negb_true_iff, String.eqb_neq in Hf. congruence.
Qed.

(** *** Adding layers, continued *)

Lemma construct_returns (kind : LayerKind) (file_path name : string)
    (w : World) :
  exists l : Layer,
    construct kind file_path name w
    = (Ok (length (heap w)),
       mkWorld (project w) (heap w ++ [Some l])%list (provider w) (writer w))
    /\ l_name l = name
    /\ l_id l = next_id w name
    /\ l_type l = kind_code kind
    /\ l_selectedFeatureIds l = ∅.
Proof.
  destruct kind; unfold construct, QgsVectorLayer, QgsRasterLayer, bind, new_id,
    next_id.
  - destruct (provider w "ogr" file_path) as [[c fs feats|c]|];
      unfold alloc; eexists; repeat split.
  - destruct (provider w "gdal" file_path) as [[c fs feats|c]|];
      unfold alloc; eexists; repeat split.
Qed.

(** What a successful [add_*_layer] call has done when the id of the new
    layer was free. *)
Lemma add_layer_success (kind : LayerKind) (w w' : World)
    (m : list (string * ref)) (file_path : string)
    (layer_name : option string) (a : ref) :
  project w = Some m ->
  has_key (next_id w (name_or_stem layer_name file_path)) m = false ->
  add_layer kind file_path layer_name w = (Ok (Some a), w') ->
  exists l : Layer,
    a = length (heap w)
    /\ w' = mkWorld (Some (m ++ [(l_id l, a)])%list) (heap w ++ [Some l])%list
                    (provider w) (writer w)
    /\ l_name l = name_or_stem layer_name file_path
    /\ l_id l = next_id w (name_or_stem layer_name file_path)
    /\ l_type l = kind_code kind
    /\ l_isValid l = true.
Proof.
  intros Hm Hfresh Hadd.
  destruct (construct_returns kind file_path (name_or_stem layer_name file_path) w)
    as [l [Hc [Hname [Hid [Ht _]]]]].
  pose proof (object_allocated w l) as Hl.
  rewrite (add_layer_run kind file_path layer_name w _ _ l Hc Hl) in Hadd.
  destruct (l_isValid l) eqn:Hv; [|discriminate].
  rewrite (addMapLayer_fresh _ m _ l) in Hadd;
    [|exact Hm|exact Hl|now rewrite Hid].
  inversion Hadd; subst. exists l. repeat split; assumption.
Qed.

Lemma filter_free_key (m : list (string * ref)) (key : string) :
  has_key key m = false ->
  List.filter (fun e => negb (String.eqb e.1 key)) m = m.
Proof.
  unfold has_key. induction m as [|e m IH]; cbn [existsb List.filter];
    [reflexivity|].
  intros H. apply orb_false_iff in H. destruct H as [He Hm].
  rewrite He. cbn [negb]. now rewrite IH.
Qed.

(** X11.  A layer that has just been added is found under its name when no
    layer of the project had that name, and removing it by that name gives
    back the layer map the project had before the addition.  (The id the
    toolkit gives the new layer is assumed free.) *)
Theorem add_then_find_then_remove (kind : LayerKind) (w w' : World)
    (m : list (string * ref)) (file_path : string)
    (layer_name : option string) (a : ref) :
  project w = Some m ->
  live w m ->
  Forall (fun e => ~ named w (name_or_stem layer_name file_path) e.2) m ->
  has_key (next_id w (name_or_stem layer_name file_path)) m = false ->
  add_layer kind file_path layer_name w = (Ok (Some a), w') ->
  get_layer_by_name (name_or_stem layer_name file_path) w' = (Ok (Some a), w')
  /\ exists w'',
       remove_layer (name_or_stem layer_name file_path) w' = (Ok true, w'')
       /\ project w'' = Some m.
Proof.
  intros Hm Hlive Hnone Hfresh Hadd.
  destruct (add_layer_success kind w w' m file_path layer_name a Hm Hfresh Hadd)
    as [l [Ha [Hw' [Hname [Hid _]]]]].
  set (n := name_or_stem layer_name file_path) in *.
  assert (Hl : object w' a = Some l) by (subst a w'; apply object_allocated).
  assert (Hget : get_layer_by_name n w' = (Ok (Some a), w')).
  { apply (get_layer_by_name_found w' n m [] (l_id l) a).
    - now subst w'.
    - apply Forall_forall. intros e He.
      unfold live in Hlive. rewrite Forall_forall in Hlive, Hnone.
      destruct (Hlive e He) as [le Hle]. exists le. split.
      + subst w'. now apply object_preserved.
      + intros Hn. apply (Hnone e He). now exists le.
    - now exists l. }
  split; [exact Hget|].
  exists (after_removal w' (m ++ [(l_id l, a)])%list l). split.
  - apply (remove_layer_run w' _ n a l); [now subst w'|exact Hget|exact Hl].
  - unfold after_removal. cbn [project]. rewrite List.filter_app.
    cbn [List.filter fst]. rewrite String.eqb_refl. cbn [negb].
    rewrite app_nil_r, filter_free_key; [reflexivity|now rewrite Hid].
Qed.

(** X12.  [add_raster_layer] does for raster layers what [add_vector_layer]
    does for vector layers: an invalid layer gives [None]; a valid one, whose
    id is free, is entered in the layer map under its id and returned. *)
Theorem add_raster_layer_registers (w w1 : World) (m : list (string * ref))
    (file_path : string) (layer_name : option string) (a : ref) (l : Layer) :
  project w = Some m ->
  QgsRasterLayer file_path (name_or_stem layer_name file_path) w = (Ok a, w1) ->
  object w1 a = Some l ->
  has_key (l_id l) m = false ->
  l_type l = RasterLayer
  /\ if l_isValid l
     then exists w2 : World,
            add_raster_layer file_path layer_name w = (Ok (Some a), w2)
            /\ project w2 = Some (m ++ [(l_id l, a)])%list
            /\ object w2 a = Some l
     else add_raster_layer file_path layer_name w = (Ok None, w1).
Proof.
  intros Hm Hc Hl Hfresh.
  pose proof (add_layer_run Raster file_path layer_name w w1 a l Hc Hl) as Hrun.
  cbn [add_layer] in Hrun.
  destruct (construct_inv Raster _ _ _ _ _ Hc) as [l' [Ha [Hw1 [_ Ht]]]].
  assert (l' = l) as ->.
  { subst a w1. rewrite object_allocated in Hl. congruence. }
  split; [exact Ht|].
  destruct (l_isValid l); [|exact Hrun].
  assert (Hm1 : project w1 = Some m) by (now subst w1).
  rewrite (addMapLayer_fresh w1 m a l Hm1 Hl Hfresh) in Hrun.
  eexists. split; [exact Hrun|]. split; [reflexivity|exact Hl].
Qed.

(** X13.  A name given to [add_vector_layer] or [add_raster_layer] is the
    name the toolkit is asked to build the layer under, whatever the path:
    if the layer built from the path under that name is valid (and its id
    free), the method returns it and enters it in the layer map, and the
    registered layer carries the given name.  The empty name counts as no
    name: the call is the call made without a name. *)
Theorem given_name_is_used (kind : LayerKind) (w w1 : World)
    (m : list (string * ref)) (file_path name : string) (a : ref)
    (l : Layer) :
  name <> "" ->
  project w = Some m ->
  construct kind file_path name w = (Ok a, w1) ->
  object w1 a = Some l ->
  l_isValid l = true ->
  has_key (l_id l) m = false ->
  (exists w2 : World,
     add_layer kind file_path (Some name) w = (Ok (Some a), w2)
     /\ project w2 = Some (m ++ [(l_id l, a)])%list
     /\ object w2 a = Some l
     /\ l_name l = name)
  /\ add_layer kind file_path (Some "") w = add_layer kind file_path None w.
Proof.
  intros Hne Hm Hc Hl Hvalid Hfresh. split; [|now destruct kind].
  assert (Hname : name_or_stem (Some name) file_path = name).
  { destruct name; [congruence|reflexivity]. }
  pose proof (add_layer_enters kind w w1 m file_path (Some name) a l Hm)
    as Henters.
  rewrite Hname in Henters.
  exact (Henters Hc Hl Hvalid Hfresh).
Qed.

(** X14.  Called without a name on a path whose base name holds no dot,
    [add_vector_layer] and [add_raster_layer] have the layer built under
    the whole base name; for a path that ends with a slash that is the empty
    name.  If the layer so built is valid (and its id free), it is returned
    and entered in the layer map under that name. *)
Theorem default_name_without_extension (kind : LayerKind) (w w1 : World)
    (m : list (string * ref)) (prefix base : string) (a : ref) (l : Layer) :
  prefix = "" \/ (exists d, prefix = d +:+ "/") ->
  os_path.occurs os_path.sep base = false ->
  os_path.occurs os_path.extsep base = false ->
  project w = Some m ->
  construct kind (prefix +:+ base) base w = (Ok a, w1) ->
  object w1 a = Some l ->
  l_isValid l = true ->
  has_key (l_id l) m = false ->
  exists w2 : World,
    add_layer kind (prefix +:+ base) None w = (Ok (Some a), w2)
    /\ project w2 = Some (m ++ [(l_id l, a)])%list
    /\ object w2 a = Some l
    /\ l_name l = base.
Proof.
  intros Hprefix Hsep Hdot Hm Hc Hl Hvalid Hfresh.
  assert (Hname : name_or_stem None (prefix +:+ base) = base).
  { cbn [name_or_stem]. rewrite basename_after_slash by assumption.
    now rewrite splitext_no_extension. }
  pose proof (add_layer_enters kind w w1 m (prefix +:+ base) None a l Hm)
    as Henters.
  rewrite Hname in Henters.
  exact (Henters Hc Hl Hvalid Hfresh).
Qed.

(** *** A project that is gone *)

(** X15.  Once the project object is gone, every method written with a
    [try] block gives its failure value: [False], the empty list or [None].
    The queries and the selection and removal methods leave the world as it
    is; an [add_*_layer] call returns [None] even for a readable source. *)
Theorem gone_project_gives_failure_values (w : World) (kind : LayerKind)
    (file_path layer_name : string) (name : option string) (limit : option Z)
    (attribute : string) (value : Value) (feature_ids : list Z)
    (output_path driver_name : string) :
  project w = None ->
  remove_layer layer_name w = (Ok false, w)
  /\ get_layer_features layer_name limit w = (Ok [], w)
  /\ get_layer_attributes layer_name w = (Ok [], w)
  /\ filter_features py_eq layer_name attribute value w = (Ok [], w)
  /\ select_features layer_name feature_ids w = (Ok false, w)
  /\ clear_selection layer_name w = (Ok false, w)
  /\ get_layer_crs layer_name w = (Ok None, w)
  /\ export_vector_layer layer_name output_path driver_name w = (Ok false, w)
  /\ (add_layer kind file_path name w).1 = Ok None
  /\ project (add_layer kind file_path name w).2 = None.
Proof.
  intros Hgone.
  destruct (unguarded_methods_raise w layer_name Hgone) as [Hget _].
  unfold remove_layer, get_layer_features, get_layer_attributes,
    filter_features, select_features, clear_selection, get_layer_crs,
    export_vector_layer.
  repeat (split; [resolve_with Hget; reflexivity|]).
  destruct (construct_returns kind file_path (name_or_stem name file_path) w)
    as [l [Hc _]].
  rewrite (add_layer_run kind file_path name w _ _ l Hc (object_allocated w l)).
  destruct (l_isValid l); [|split; [reflexivity|exact Hgone]].
  unfold QgsProject_addMapLayer, bind, QgsProject_mapLayers. cbn [project].
  rewrite Hgone. split; reflexivity.
Qed.

(** *** The project stays consistent *)

Lemma well_formed_after_removal (w : World) (m : list (string * ref))
    (l : Layer) :
  project w = Some m -> consistent w m -> well_formed (after_removal w m l).
Proof.
  intros Hm Hcons. eexists. split; [reflexivity|].
  apply Forall_forall. intros e He. apply list_elem_of_In in He.
  apply filter_In in He. destruct He as [He Hk].
  apply negb_true_iff, String.eqb_neq in Hk.
  rewrite (kept_objects w m l e Hcons He Hk).
  now apply (consistent_In w m).
Qed.

Lemma well_formed_store (w : World) (a : ref) (l : Layer) (ids : gset Z) :
  object w a = Some l ->
  well_formed w ->
  well_formed (store a (set_selection ids l) w).2.
Proof.
  intros Hl [m [Hm Hcons]]. exists m. split; [exact Hm|].
  apply Forall_forall. intros e He. apply list_elem_of_In in He.
  destruct (consistent_In w m e Hcons He) as [le [Hle Hid]].
  rewrite (object_store w a e.2 l _ Hl).
  destruct (decide (a = e.2)) as [Heq|]; [|now exists le].
  exists (set_selection ids l). split; [reflexivity|].
  rewrite <- Heq in Hle. cbn [l_id set_selection]. congruence.
Qed.

Lemma well_formed_selection_method (w : World) (layer_name : string)
    (ids : gset Z) (name : string) :
  well_formed w ->
  well_formed
    (try_except
       (let* layer := get_layer_by_name layer_name in
        match layer with
        | None => ret false
        | Some layer =>
            let* t := QgsMapLayer_type layer in
            if negb (t =? 0) then ret false
            else let* _ := (let* l := vector_only name layer in
                            store layer (set_selection ids l)) in ret true
        end)
       (fun e => ret false) w).2.
Proof.
  intros Hwf. pose proof (get_layer_by_name_is_read_only layer_name w) as Hget.
  unfold try_except, bind at 1.
  destruct (get_layer_by_name layer_name w) as [[[a|]|e] w1];
    cbn [snd] in Hget; subst w1; try exact Hwf.
  destruct (accessors_read_only a) as [_ [Ht _]]. specialize (Ht w).
  unfold bind at 1.
  destruct (QgsMapLayer_type a w) as [[t|e] w1]; cbn [snd] in Ht; subst w1;
    try exact Hwf.
  destruct (negb (t =? 0)); [exact Hwf|].
  unfold bind at 1 2.
  destruct (vector_only name a w) as [[l|e] w1] eqn:Hv.
  - destruct (vector_only_inv _ _ _ _ _ Hv) as [-> Hl].
    exact (well_formed_store w a l ids Hl Hwf).
  - assert (Hw : (vector_only name a w).2 = w).
    { unfold vector_only. apply bind_read_only; [apply deref_read_only|].
      intros l0. destruct (l_type l0 =? VectorLayer);
        [apply ret_read_only|apply raise_read_only]. }
    rewrite Hv in Hw. cbn [snd] in Hw |- *. now subst w1.
Qed.

(** X16.  The methods that change the project keep it consistent: if the
    project is alive and every entry of its layer map points at a live layer
    registered under its own id, the same holds after [remove_layer],
    [select_features], [clear_selection] and both [add_*_layer] methods,
    whatever they return. *)
Theorem mutators_keep_project_consistent (w : World) (kind : LayerKind)
    (file_path layer_name : string) (name : option string)
    (feature_ids : list Z) :
  well_formed w ->
  well_formed (remove_layer layer_name w).2
  /\ well_formed (select_features layer_name feature_ids w).2
  /\ well_formed (clear_selection layer_name w).2
  /\ well_formed (add_layer kind file_path name w).2.
Proof.
  intros Hwf. split; [|split; [|split]].
  - destruct Hwf as [m [Hm Hcons]].
    destruct (get_layer_by_name_resolves w layer_name m Hm
                (consistent_live _ _ Hcons)) as [r [Hget Hfirst]].
    destruct r as [a|].
    + destruct (get_layer_by_name_named _ _ _ _ Hget) as [l [Hl _]].
      rewrite (remove_layer_run w m layer_name a l Hm Hget Hl).
      now apply well_formed_after_removal.
    + rewrite (remove_layer_absent w layer_name Hget). now exists m.
  - now apply (well_formed_selection_method w layer_name
                 (list_to_set feature_ids) "selectByIds").
  - now apply (well_formed_selection_method w layer_name ∅ "removeSelection").
  - destruct Hwf as [m [Hm Hcons]].
    destruct (construct_returns kind file_path (name_or_stem name file_path) w)
      as [l [Hc _]].
    pose proof (object_allocated w l) as Hl.
    set (w1 := mkWorld (project w) (heap w ++ [Some l])%list (provider w)
                       (writer w)) in *.
    assert (Hcons1 : consistent w1 m).
    { apply Forall_forall. intros e He. apply list_elem_of_In in He.
      destruct (consistent_In w m e Hcons He) as [le [Hle Hid]].
      exists le. split; [now apply object_preserved|exact Hid]. }
    rewrite (add_layer_run kind file_path name w w1 _ l Hc Hl).
    destruct (l_isValid l); [|now exists m].
    unfold QgsProject_addMapLayer.
    rewrite (bind_ok _ _ _ _ _ (mapLayers_project w1 m Hm)).
    rewrite (bind_ok _ _ _ _ _ (deref_object _ _ _ Hl)).
    destruct (has_key (l_id l) m); [now exists m|].
    cbn [snd]. eexists. split; [reflexivity|].
    apply Forall_app. split.
    + exact Hcons1.
    + constructor; [|constructor]. exists l. split; [exact Hl|reflexivity].
Qed.

(** *** Project files *)

Local Abbreviation Session := (@Session Value).

Lemma s_bind_ok {A B : Type} (c : @SessionM Value A) (k : A -> @SessionM Value B)
    (s s' : Session) (a : A) :
  c s = (Ok a, s') -> s_bind c k s = k a s'.
Proof. intros H. unfold s_bind. now rewrite H. Qed.

Lemma with_world_same (s : Session) : with_world s (world s) = s.
Proof. now destruct s. Qed.

Lemma lift_read_only {A : Type} (c : @M Value A) (s : Session) (r : outcome A) :
  c (world s) = (r, world s) -> lift c s = (r, s).
Proof. intros H. unfold lift. now rewrite H, with_world_same. Qed.

(** X17.  With no path to save to, neither given nor remembered,
    [save_project] returns [False] and writes nothing. *)
Theorem save_project_without_path (s : Session) (save_path : option string) :
  save_path = None \/ save_path = Some "" ->
  project_path s = None \/ project_path s = Some "" ->
  save_project save_path s = (Ok false, s).
Proof.
  intros Hs Hp. unfold save_project, s_try_except, s_bind, get_project_path.
  destruct Hs as [->| ->], Hp as [->| ->]; reflexivity.
Qed.

(** X18.  [save_project] writes to the given path, or to the remembered one
    when none is given, and returns the flag of the writer, [False] if the
    writer raises.  The manager remembers the path only when the flag is
    [True]; otherwise the remembered path stays as it was. *)
Theorem save_project_remembers_on_success (s : Session)
    (save_path : option string) (path : string) :
  path_or save_path (project_path s) = Some path ->
  path <> "" ->
  is_Some (project (world s)) ->
  let written := write s path (world s, layer_tree s) in
  let success := match written.1 with Ok b => b | Raised _ => false end in
  save_project save_path s
  = (Ok success,
     mkSession written.2.1
               (if success then Some path else project_path s)
               written.2.2 (read s) (write s) (path_exists s)).
Proof.
  intros Hpath Hne [m Hm] written success.
  unfold save_project, s_try_except, s_bind at 1, get_project_path.
  rewrite Hpath. destruct path as [|c p]; [congruence|].
  unfold s_bind, QgsProject_write, project_io. rewrite Hm.
  subst success. fold written.
  destruct written as [[[|]|e] [w t]]; reflexivity.
Qed.

(** [load_project] in one step. *)
Lemma load_project_run (s : Session) (path : string) :
  load_project path s
  = match project (world s) with
    | None =>
        (Ok false,
         mkSession (world s) (Some path) (layer_tree s) (read s) (write s)
                   (path_exists s))
    | Some _ =>
        let '(r, (w, t)) := read s path (world s, layer_tree s) in
        (Ok (match r with
             | Ok true => match project w with Some _ => true | None => false end
             | _ => false
             end),
         mkSession w (Some path) t (read s) (write s) (path_exists s))
    end.
Proof.
  unfold load_project, s_try_except, s_bind, set_project_path, QgsProject_read,
    project_io, lift, QgsProject_mapLayers, with_world.
  cbn [world layer_tree project_path read write path_exists].
  destruct (project (world s)) as [m|]; [|reflexivity].
  destruct (read s path (world s, layer_tree s)) as [[[|]|e] [w t]];
    try reflexivity.
  cbn [world]. now destruct (project w).
Qed.

Lemma load_project_path (s : Session) (path : string) :
  project_path (load_project path s).2 = Some path.
Proof.
  rewrite load_project_run.
  destruct (project (world s)) as [m|]; [|reflexivity].
  now destruct (read s path (world s, layer_tree s)) as [r [w t]].
Qed.

(** X19.  [load_project] remembers the path it is given before it reads, so
    the path is remembered whether the project loads, fails to load or the
    toolkit raises; and it returns [True] only when the reader has returned
    [True]. *)
Theorem load_project_remembers_path (s : Session) (path : string) :
  project_path (load_project path s).2 = Some path
  /\ ((load_project path s).1 = Ok true \/ (load_project path s).1 = Ok false)
  /\ ((load_project path s).1 = Ok true ->
      (read s path (world s, layer_tree s)).1 = Ok true).
Proof.
  rewrite load_project_run.
  destruct (project (world s)) as [m|].
  - destruct (read s path (world s, layer_tree s)) as [[[|]|e] [w t]];
      cbn [fst snd project_path]; repeat split; auto;
      try (intros H; discriminate H).
    destruct (project w); auto.
  - cbn [fst snd project_path]. repeat split; auto. intros H; discriminate H.
Qed.

(** X20.  After [load_project], whatever its outcome, [save_project] called
    without a path saves to the path that was given to [load_project]. *)
Theorem save_after_load_uses_loaded_path (s : Session) (path : string) :
  path <> "" ->
  save_project None (load_project path s).2
  = save_project (Some path) (load_project path s).2.
Proof.
  intros Hne. pose proof (load_project_path s path) as Hp.
  unfold save_project, s_try_except, s_bind at 1 3, get_project_path.
  rewrite Hp. destruct path; [congruence|reflexivity].
Qed.

(** [__init__] in one step. *)
Lemma init_run (s : Session) (path : option string) :
  __init__ path s
  = (Ok tt,
     match path with
     | Some (String c p) =>
         if path_exists s (String c p)
         then (load_project (String c p) s).2
         else mkSession (world s) path (layer_tree s) (read s) (write s)
                        (path_exists s)
     | _ => mkSession (world s) path (layer_tree s) (read s) (write s)
                      (path_exists s)
     end).
Proof.
  unfold __init__, s_bind, set_project_path, os_path_exists.
  destruct path as [[|c p]|]; try reflexivity.
  cbn [path_exists]. destruct (path_exists s (String c p)); [|reflexivity].
  rewrite !load_project_run.
  cbn [world layer_tree project_path read write path_exists].
  destruct (project (world s)); [|reflexivity].
  now destruct (read s (String c p) (world s, layer_tree s)) as [r [w t]].
Qed.

(** X21.  Creating a manager never raises, and the manager remembers the
    path it was created with, loaded or not. *)
Theorem init_remembers_path (s : Session) (path : option string) :
  (__init__ path s).1 = Ok tt
  /\ project_path (__init__ path s).2 = path.
Proof.
  rewrite init_run. split; [reflexivity|]. cbn [snd].
  destruct path as [[|c p]|]; try reflexivity.
  destruct (path_exists s (String c p)); [|reflexivity].
  apply load_project_path.
Qed.

(** X22.  Created without a path, with the empty path, or with the path of
    a file that does not exist, a manager reads no project: the world and
    the layer tree are as they were. *)
Theorem init_reads_existing_files_only (s : Session) (path : option string) :
  match path with
  | Some (String c p) => path_exists s (String c p) = false
  | _ => True
  end ->
  __init__ path s
  = (Ok tt, mkSession (world s) path (layer_tree s) (read s) (write s)
                      (path_exists s)).
Proof.
  intros H. rewrite init_run.
  destruct path as [[|c p]|]; try reflexivity. now rewrite H.
Qed.

(** *** Visibility *)

Lemma find_node_Some (layer_id : string) (t : LayerTree) (i : nat) :
  find_node layer_id t = Some i -> exists b, t !! i = Some (layer_id, b).
Proof.
  revert i. induction t as [|[k b] t IH]; intros i; cbn [find_node];
    [discriminate|].
  destruct (String.eqb_spec k layer_id) as [->|Hne].
  - intros H. inversion H. now exists b.
  - destruct (find_node layer_id t) as [j|]; [|discriminate].
    intros H. inversion H. cbn. now apply IH.
Qed.

Lemma find_node_alter (layer_id : string) (t : LayerTree) (i : nat)
    (visible : bool) :
  find_node layer_id (list_alter (check_node visible) i t)
  = find_node layer_id t.
Proof.
  revert i. induction t as [|[k b] t IH]; intros [|i]; cbn; try reflexivity.
  now rewrite IH.
Qed.

Lemma alter_check_twice (t : LayerTree) (i : nat) (v1 v2 : bool) :
  list_alter (check_node v2) i (list_alter (check_node v1) i t)
  = list_alter (check_node v2) i t.
Proof.
  revert i. induction t as [|[k b] t IH]; intros [|i]; cbn; try reflexivity.
  now rewrite IH.
Qed.

Lemma get_layer_by_name_alive (n : string) (w w' : World) (r : option ref) :
  get_layer_by_name n w = (Ok r, w') -> is_Some (project w).
Proof.
  unfold get_layer_by_name, bind, QgsProject_mapLayers.
  destruct (project w) as [m|]; [eauto|discriminate].
Qed.

(** One run of [set_layer_visibility] on a layer found by name whose node
    is the [i]-th of the layer tree. *)
Lemma set_layer_visibility_run (s : Session) (layer_name : string)
    (visible : bool) (a : ref) (l : Layer) (i : nat) :
  get_layer_by_name layer_name (world s) = (Ok (Some a), world s) ->
  object (world s) a = Some l ->
  find_node (l_id l) (layer_tree s) = Some i ->
  set_layer_visibility layer_name visible s
  = (Ok true,
     mkSession (world s) (project_path s)
               (list_alter (check_node visible) i (layer_tree s))
               (read s) (write s) (path_exists s)).
Proof.
  intros Hget Hl Hnode. unfold set_layer_visibility, s_try_except.
  rewrite (s_bind_ok _ _ _ _ _ (lift_read_only _ s _ Hget)).
  destruct (get_layer_by_name_alive _ _ _ _ Hget) as [m Hm].
  unfold s_bind at 1, QgsProject_layerTreeRoot. rewrite Hm.
  rewrite (s_bind_ok _ _ _ _ _ (lift_read_only _ s _ (id_object _ _ _ Hl))).
  unfold s_bind, QgsLayerTreeGroup_findLayer. rewrite Hnode. reflexivity.
Qed.

(** X23.  On a layer resolved by name, of whatever kind, whose id has a node
    in the layer tree, [set_layer_visibility] returns [True] and gives the
    first such node the requested check mark.  The other nodes, the ids of
    all nodes, the world and the remembered path are unchanged. *)
Theorem set_layer_visibility_checks_node (s : Session) (layer_name : string)
    (visible : bool) (a : ref) (l : Layer) (i : nat) :
  get_layer_by_name layer_name (world s) = (Ok (Some a), world s) ->
  object (world s) a = Some l ->
  find_node (l_id l) (layer_tree s) = Some i ->
  exists s' : Session,
    set_layer_visibility layer_name visible s = (Ok true, s')
    /\ world s' = world s
    /\ project_path s' = project_path s
    /\ layer_tree s' !! i = Some (l_id l, visible)
    /\ (forall j, j <> i -> layer_tree s' !! j = layer_tree s !! j)
    /\ map fst (layer_tree s') = map fst (layer_tree s).
Proof.
  intros Hget Hl Hnode. eexists.
  split; [exact (set_layer_visibility_run s layer_name visible a l i Hget Hl Hnode)|].
  cbn [world project_path layer_tree].
  destruct (find_node_Some _ _ _ Hnode) as [b Hb].
  change (list_alter (check_node visible) i (layer_tree s))
    with (alter (check_node visible) i (layer_tree s)).
  unfold LayerTree in *.
  repeat split.
  - rewrite list_lookup_alter_eq, Hb. reflexivity.
  - intros j Hj. now rewrite list_lookup_alter_ne.
  - clear. revert i. induction (layer_tree s) as [|[k b] t IH]; intros [|i];
      cbn; try reflexivity. now rewrite IH.
Qed.

(** X24.  [set_layer_visibility] returns [False] and changes nothing when
    the name resolves to no layer, or to a layer whose id has no node in the
    layer tree. *)
Theorem set_layer_visibility_rejects (s : Session) (layer_name : string)
    (visible : bool) (r : option ref) :
  get_layer_by_name layer_name (world s) = (Ok r, world s) ->
  match r with
  | None => True
  | Some a => exists l, object (world s) a = Some l
                        /\ find_node (l_id l) (layer_tree s) = None
  end ->
  set_layer_visibility layer_name visible s = (Ok false, s).
Proof.
  intros Hget Hr. unfold set_layer_visibility, s_try_except.
  rewrite (s_bind_ok _ _ _ _ _ (lift_read_only _ s _ Hget)).
  destruct r as [a|]; [|reflexivity]. destruct Hr as [l [Hl Hnode]].
  destruct (get_layer_by_name_alive _ _ _ _ Hget) as [m Hm].
  unfold s_bind at 1, QgsProject_layerTreeRoot. rewrite Hm.
  rewrite (s_bind_ok _ _ _ _ _ (lift_read_only _ s _ (id_object _ _ _ Hl))).
  unfold s_bind, QgsLayerTreeGroup_findLayer. rewrite Hnode. reflexivity.
Qed.

(** X25.  The last [set_layer_visibility] wins: setting the visibility of a
    layer and then setting it again leaves the session as setting it once to
    the second value does; in particular repeating a call changes nothing
    more. *)
Theorem set_layer_visibility_last_wins (s : Session) (layer_name : string)
    (first second : bool) (a : ref) (l : Layer) (i : nat) :
  get_layer_by_name layer_name (world s) = (Ok (Some a), world s) ->
  object (world s) a = Some l ->
  find_node (l_id l) (layer_tree s) = Some i ->
  s_bind (set_layer_visibility layer_name first)
    (fun _ => set_layer_visibility layer_name second) s
  = set_layer_visibility layer_name second s.
Proof.
  intros Hget Hl Hnode.
  rewrite (s_bind_ok _ _ _ _ _
             (set_layer_visibility_run s layer_name first a l i Hget Hl Hnode)).
  rewrite (set_layer_visibility_run s layer_name second a l i Hget Hl Hnode).
  rewrite (set_layer_visibility_run _ layer_name second a l i);
    cbn [world layer_tree project_path read write path_exists];
    try assumption.
  - now rewrite alter_check_twice.
  - now rewrite find_node_alter.
Qed.



End Properties.

Lemma atlas_live : live atlas [("L2", 0%nat); ("L1", 1%nat); ("L3", 2%nat)].
Proof. repeat constructor; eexists; reflexivity. Qed.

Lemma get_layer_by_name_first_match_witness :
  exists r, get_layer_by_name "roads" atlas = (Ok r, atlas)
            /\ first_named atlas "roads"
                 [("L2", 0%nat); ("L1", 1%nat); ("L3", 2%nat)] r
            /\ bind (get_layer_by_name "roads")
                 (fun r1 => bind (get_layer_by_name "roads")
                   (fun r2 => ret (r1, r2))) atlas = (Ok (r, r), atlas).
Proof.
  apply (get_layer_by_name_first_match atlas "roads").
  - reflexivity.
  - exact atlas_live.
Defined.

Lemma vector_methods_reject_witness :
  get_layer_features "relief" (Some 2) atlas = (Ok [], atlas)
  /\ get_layer_attributes "relief" atlas = (Ok [], atlas)
  /\ filter_features Z.eqb "relief" "class" 1 atlas = (Ok [], atlas)
  /\ select_features "relief" [1; 2] atlas = (Ok false, atlas)
  /\ clear_selection "relief" atlas = (Ok false, atlas)
  /\ export_vector_layer "relief" "/tmp/relief.shp" "ESRI Shapefile" atlas
     = (Ok false, atlas).
Proof.
  apply (vector_methods_reject Z.eqb atlas "relief" (Some 0%nat)).
  - reflexivity.
  - exists relief. split; [reflexivity|]. discriminate.
Defined.

(** C3.  After the application has shut the project down, the project
    raises on every call.  [get_layer_by_name] and [list_layers], which have
    no [try] block, let that fault through to the caller, where
    [remove_layer] and [get_layer_crs] on the same world turn it into their
    failure value. *)
Theorem lookup_and_listing_let_faults_through :
  get_layer_by_name "roads" shut_down
  = (Raised (RuntimeError "wrapped C/C++ object of type QgsProject has been deleted"),
     shut_down)
  /\ list_layers shut_down
     = (Raised (RuntimeError "wrapped C/C++ object of type QgsProject has been deleted"),
        shut_down)
  /\ remove_layer "roads" shut_down = (Ok false, shut_down)
  /\ get_layer_crs "roads" shut_down = (Ok None, shut_down).
Proof. repeat split. Qed.

(** C4.  Asked for at most zero features of the three-feature layer
    "roads", [get_layer_features] returns all three. *)
Theorem get_layer_features_limit_zero :
  get_layer_features "roads" (Some 0) registry = (Ok road_features, registry)
  /\ length road_features = 3%nat.
Proof. split; reflexivity. Qed.

Lemma roads_schema : schema_respected roads.
Proof. repeat constructor. Qed.

Lemma filter_features_exact_witness :
  filter_features Z.eqb "roads" "class" 1 atlas
  = (Ok [road 1 1 2; road 3 1 4], atlas)
  /\ bind (filter_features Z.eqb "roads" "class" 1)
       (fun r1 => bind (filter_features Z.eqb "roads" "class" 1)
         (fun r2 => ret (r1, r2))) atlas
     = (Ok ([road 1 1 2; road 3 1 4], [road 1 1 2; road 3 1 4]), atlas).
Proof.
  apply (filter_features_exact Z.eqb atlas "roads" "class" 1 1%nat roads).
  - reflexivity.
  - reflexivity.
  - exact roads_schema.
Defined.

Lemma select_then_clear_selection_witness :
  exists (w1 w2 : @World Z) (l1 l2 : @Layer Z),
    select_features "roads" [1; 3] atlas = (Ok true, w1)
    /\ object w1 1%nat = Some l1
    /\ l_selectedFeatureIds l1 = list_to_set [1; 3]
    /\ bind (select_features "roads" [1; 3])
         (fun _ => clear_selection "roads") atlas = (Ok true, w2)
    /\ object w2 1%nat = Some l2
    /\ l_selectedFeatureIds l2 = ∅.
Proof.
  apply (select_then_clear_selection atlas "roads" 1%nat roads [1; 3]);
    reflexivity.
Defined.

Lemma registry_consistent : consistent registry [("L1", 0%nat)].
Proof. repeat constructor. exists roads. split; reflexivity. Qed.

Lemma remove_layer_by_name_witness :
  exists r,
    get_layer_by_name "roads" registry = (Ok r, registry)
    /\ first_named registry "roads" [("L1", 0%nat)] r
    /\ match r with
       | None => remove_layer "roads" registry = (Ok false, registry)
       | Some a =>
           exists (l : @Layer Z) (w' : @World Z),
             object registry a = Some l
             /\ remove_layer "roads" registry = (Ok true, w')
             /\ project w'
                = Some (List.filter (fun e => negb (String.eqb e.1 (l_id l)))
                          [("L1", 0%nat)])
             /\ ((forall e, In e [("L1", 0%nat)] ->
                            named registry "roads" e.2 -> e.2 = a) ->
                 get_layer_by_name "roads" w' = (Ok None, w')
                 /\ remove_layer "roads" w' = (Ok false, w'))
       end.
Proof.
  apply (remove_layer_by_name registry [("L1", 0%nat)] "roads").
  - reflexivity.
  - exact registry_consistent.
Defined.

Lemma add_vector_layer_registers_witness :
  l_type streets = VectorLayer
  /\ if l_isValid streets
     then exists w2 : @World Z,
            add_vector_layer "/data/roads.shp" (Some "streets") registry
            = (Ok (Some 1%nat), w2)
            /\ project w2 = Some ([("L1", 0%nat)] ++ [(l_id streets, 1%nat)])%list
            /\ object w2 1%nat = Some streets
     else add_vector_layer "/data/roads.shp" (Some "streets") registry
          = (Ok None,
             mkWorld (Some [("L1", 0%nat)]) [Some roads; Some streets]
                     disk ogr_writer).
Proof.
  apply (add_vector_layer_registers registry
           (mkWorld (Some [("L1", 0%nat)]) [Some roads; Some streets]
                    disk ogr_writer)
           [("L1", 0%nat)] "/data/roads.shp" (Some "streets") 1%nat streets);
    reflexivity.
Defined.

Lemma invalid_layer_is_not_registered_witness :
  exists w' : @World Z,
    add_layer Raster "/data/roads.shp" None atlas = (Ok None, w')
    /\ project w' = project atlas
    /\ forall b l0, object atlas b = Some l0 -> object w' b = Some l0.
Proof.
  eapply (invalid_layer_is_not_registered Raster atlas _ "/data/roads.shp"
            None 3%nat); reflexivity.
Defined.

Lemma default_name_is_stem_witness :
  (exists w2 : @World Z,
     add_vector_layer "/data/roads.shp" None blank = (Ok (Some 0%nat), w2)
     /\ project w2 = Some ([] ++ [(l_id first_roads, 0%nat)])%list
     /\ object w2 0%nat = Some first_roads
     /\ l_name first_roads = "roads")
  /\ (exists w2 : @World Z,
        add_raster_layer "/data/relief.tif" None blank = (Ok (Some 0%nat), w2)
        /\ project w2 = Some ([] ++ [(l_id first_relief, 0%nat)])%list
        /\ object w2 0%nat = Some first_relief
        /\ l_name first_relief = "relief").
Proof.
  split.
  - apply (default_name_is_stem Vector blank
             (mkWorld (Some []) [Some first_roads] disk ogr_writer) []
             "/data/" "roads" "shp" 0%nat first_roads);
      try reflexivity.
    right. exists "/data". reflexivity.
  - apply (default_name_is_stem Raster blank
             (mkWorld (Some []) [Some first_relief] disk ogr_writer) []
             "/data/" "relief" "tif" 0%nat first_relief);
      try reflexivity.
    right. exists "/data". reflexivity.
Defined.

(** ** The scenarios of the specification *)

Example scenario_find_roads :
  get_layer_by_name "roads" registry = (Ok (Some 0%nat), registry)
  /\ object registry 0%nat = Some roads.
Proof. split; reflexivity. Qed.

Example scenario_find_rivers :
  get_layer_by_name "rivers" registry = (Ok None, registry).
Proof. reflexivity. Qed.

Example scenario_crs :
  get_layer_crs "roads" registry = (Ok (Some "EPSG:4326"), registry)
  /\ get_layer_crs "missing" registry = (Ok None, registry).
Proof. split; reflexivity. Qed.

Example scenario_remove_roads :
  bind (remove_layer "roads")
    (fun first => bind (get_layer_by_name "roads")
      (fun found => bind (remove_layer "roads")
        (fun second => ret (first, found, second)))) registry
  = (Ok (true, None, false), mkWorld (Some []) [None] disk ogr_writer).
Proof. reflexivity. Qed.

Example scenario_collision :
  get_layer_by_name "roads" atlas = (Ok (Some 1%nat), atlas)
  /\ get_layer_features "roads" (Some 2) atlas
     = (Ok [road 1 1 2; road 2 3 2], atlas)
  /\ get_layer_attributes "roads" atlas = (Ok ["class"; "lanes"], atlas).
Proof. repeat split. Qed.

Example scenario_list_layers :
  list_layers atlas
  = (Ok [mkLayerInfo "L2" "relief" 1 true "EPSG:4326";
         mkLayerInfo "L1" "roads" 0 true "EPSG:4326";
         mkLayerInfo "L3" "roads" 1 true "EPSG:4326"], atlas).
Proof. reflexivity. Qed.

Example scenario_export :
  export_vector_layer "roads" "/tmp/out.shp" "ESRI Shapefile" legacy_atlas
  = (Ok true, legacy_atlas)
  /\ export_vector_layer "roads" "/tmp/out.xyz" "XYZ" legacy_atlas
     = (Ok false, legacy_atlas)
  /\ export_vector_layer "roads" "/tmp/out.shp" "ESRI Shapefile" atlas
     = (Ok false, atlas).
Proof. repeat split. Qed.

Example scenario_stems :
  (os_path.splitext (os_path.basename "/data/roads.shp")).1 = "roads"
  /\ (os_path.splitext (os_path.basename "roads.tar.gz")).1 = "roads.tar"
  /\ (os_path.splitext (os_path.basename "/data/.hidden")).1 = ".hidden"
  /\ (os_path.splitext (os_path.basename "/da.ta/roads")).1 = "roads".
Proof. repeat split. Qed.

(** ** Instances of the further properties *)

Lemma atlas_roads : get_layer_by_name "roads" atlas = (Ok (Some 1%nat), atlas).
Proof. reflexivity. Qed.

Lemma get_layer_features_usable_limit_witness :
  get_layer_features "roads" (Some 2) atlas
  = (Ok [road 1 1 2; road 2 3 2], atlas)
  /\ length [road 1 1 2; road 2 3 2] = Nat.min 2 3.
Proof.
  apply (get_layer_features_usable_limit atlas "roads" 1%nat roads (Some 2)).
  - reflexivity.
  - reflexivity.
  - reflexivity.
  - reflexivity.
Defined.

Lemma get_layer_features_negative_limit_witness :
  get_layer_features "roads" (Some (-1)) atlas = (Ok [], atlas).
Proof.
  apply (get_layer_features_negative_limit atlas "roads" 1%nat roads (-1));
    reflexivity.
Defined.

Lemma get_layer_attributes_field_names_witness :
  get_layer_attributes "roads" atlas = (Ok ["class"; "lanes"], atlas).
Proof.
  apply (get_layer_attributes_field_names atlas "roads" 1%nat roads);
    reflexivity.
Defined.

Lemma get_layer_crs_of_any_layer_witness :
  get_layer_crs "relief" atlas = (Ok (Some "EPSG:4326"), atlas)
  /\ is_Some (object atlas 0%nat).
Proof.
  apply (get_layer_crs_of_any_layer atlas "relief" (Some 0%nat)). reflexivity.
Defined.

Lemma list_layers_summaries_witness :
  exists infos, list_layers atlas = (Ok infos, atlas)
                /\ Forall2 (summarises atlas)
                     [("L2", 0%nat); ("L1", 1%nat); ("L3", 2%nat)] infos
                /\ length infos = 3%nat.
Proof.
  apply (list_layers_summaries atlas [("L2", 0%nat); ("L1", 1%nat); ("L3", 2%nat)]).
  - reflexivity.
  - repeat constructor; eexists; reflexivity.
Defined.

Lemma export_vector_layer_verdict_witness :
  writer atlas roads "/tmp/roads.shp" "ESRI Shapefile"
  = Ok (WriterErrorAndMessage NoError "")
  /\ export_vector_layer "roads" "/tmp/roads.shp" "ESRI Shapefile" atlas
     = (Ok false, atlas)
  /\ export_vector_layer "roads" "/tmp/roads.shp" "ESRI Shapefile" legacy_atlas
     = (Ok true, legacy_atlas).
Proof.
  split; [reflexivity|]. split.
  - apply (export_vector_layer_verdict atlas "roads" "/tmp/roads.shp"
             "ESRI Shapefile" 1%nat roads); reflexivity.
  - apply (export_vector_layer_verdict legacy_atlas "roads" "/tmp/roads.shp"
             "ESRI Shapefile" 1%nat roads); reflexivity.
Defined.

Lemma select_features_replaces_selection_witness :
  exists (w2 : @World Z) (l2 : @Layer Z),
    bind (select_features "roads" [1; 2])
      (fun _ => select_features "roads" [3]) atlas = (Ok true, w2)
    /\ object w2 1%nat = Some l2
    /\ l_selectedFeatureIds l2 = list_to_set [3].
Proof.
  apply (select_features_replaces_selection atlas "roads" 1%nat roads [1; 2] [3]);
    reflexivity.
Defined.

Lemma atlas_consistent :
  consistent atlas [("L2", 0%nat); ("L1", 1%nat); ("L3", 2%nat)].
Proof.
  repeat constructor; eexists; split; reflexivity.
Qed.

Lemma remove_layer_uncovers_namesake_witness :
  exists w',
    remove_layer "roads" atlas = (Ok true, w')
    /\ get_layer_by_name "roads" w' = (Ok (Some 2%nat), w')
    /\ ~ In "L1" (map fst (default [] (project w'))).
Proof.
  apply (remove_layer_uncovers_namesake atlas "roads"
           [("L2", 0%nat)] [] [] "L1" "L3" 1%nat 2%nat).
  - reflexivity.
  - exact atlas_consistent.
  - repeat constructor. intros [l [Hl Hn]]. inversion Hl; subst. discriminate Hn.
  - exists roads. split; reflexivity.
  - exists roads_scan. split; reflexivity.
  - discriminate.
Defined.

Lemma add_then_find_then_remove_witness :
  get_layer_by_name "roads" (add_layer Vector "/data/roads.shp" None blank).2
  = (Ok (Some 0%nat), (add_layer Vector "/data/roads.shp" None blank).2)
  /\ exists w'',
       remove_layer "roads" (add_layer Vector "/data/roads.shp" None blank).2
       = (Ok true, w'')
       /\ project w'' = Some [].
Proof.
  apply (add_then_find_then_remove Vector blank _ [] "/data/roads.shp" None 0%nat).
  - reflexivity.
  - constructor.
  - constructor.
  - reflexivity.
  - reflexivity.
Defined.

Lemma add_raster_layer_registers_witness :
  l_type dem = RasterLayer
  /\ if l_isValid dem
     then exists w2 : @World Z,
            add_raster_layer "/data/relief.tif" (Some "dem") registry
            = (Ok (Some 1%nat), w2)
            /\ project w2 = Some ([("L1", 0%nat)] ++ [(l_id dem, 1%nat)])%list
            /\ object w2 1%nat = Some dem
     else add_raster_layer "/data/relief.tif" (Some "dem") registry
          = (Ok None,
             mkWorld (Some [("L1", 0%nat)]) [Some roads; Some dem]
                     disk ogr_writer).
Proof.
  apply (add_raster_layer_registers registry
           (mkWorld (Some [("L1", 0%nat)]) [Some roads; Some dem]
                    disk ogr_writer)
           [("L1", 0%nat)] "/data/relief.tif" (Some "dem") 1%nat dem);
    reflexivity.
Defined.

Lemma given_name_is_used_witness :
  ((exists w2 : @World Z,
      add_vector_layer "/data/roads.shp" (Some "streets") registry
      = (Ok (Some 1%nat), w2)
      /\ project w2 = Some ([("L1", 0%nat)] ++ [(l_id streets, 1%nat)])%list
      /\ object w2 1%nat = Some streets
      /\ l_name streets = "streets")
   /\ add_vector_layer "/data/roads.shp" (Some "") registry
      = add_vector_layer "/data/roads.shp" None registry)
  /\ ((exists w2 : @World Z,
         add_raster_layer "/data/relief.tif" (Some "dem") registry
         = (Ok (Some 1%nat), w2)
         /\ project w2 = Some ([("L1", 0%nat)] ++ [(l_id dem, 1%nat)])%list
         /\ object w2 1%nat = Some dem
         /\ l_name dem = "dem")
      /\ add_raster_layer "/data/relief.tif" (Some "") registry
         = add_raster_layer "/data/relief.tif" None registry).
Proof.
  split.
  - apply (given_name_is_used Vector registry
             (mkWorld (Some [("L1", 0%nat)]) [Some roads; Some streets]
                      disk ogr_writer)
             [("L1", 0%nat)] "/data/roads.shp" "streets" 1%nat streets);
      try reflexivity.
    discriminate.
  - apply (given_name_is_used Raster registry
             (mkWorld (Some [("L1", 0%nat)]) [Some roads; Some dem]
                      disk ogr_writer)
             [("L1", 0%nat)] "/data/relief.tif" "dem" 1%nat dem);
      try reflexivity.
    discriminate.
Defined.

Lemma default_name_without_extension_witness :
  (exists w2 : @World Z,
     add_vector_layer "/data/roads" None any_path = (Ok (Some 0%nat), w2)
     /\ project w2 = Some ([] ++ [(l_id first_roads, 0%nat)])%list
     /\ object w2 0%nat = Some first_roads
     /\ l_name first_roads = "roads")
  /\ (exists w2 : @World Z,
        add_raster_layer "/data/relief" None any_path = (Ok (Some 0%nat), w2)
        /\ project w2 = Some ([] ++ [(l_id first_relief, 0%nat)])%list
        /\ object w2 0%nat = Some first_relief
        /\ l_name first_relief = "relief").
Proof.
  split.
  - apply (default_name_without_extension Vector any_path
             (mkWorld (Some []) [Some first_roads] (provider any_path)
                      ogr_writer) []
             "/data/" "roads" 0%nat first_roads);
      try reflexivity.
    right. exists "/data". reflexivity.
  - apply (default_name_without_extension Raster any_path
             (mkWorld (Some []) [Some first_relief] (provider any_path)
                      ogr_writer) []
             "/data/" "relief" 0%nat first_relief);
      try reflexivity.
    right. exists "/data". reflexivity.
Defined.

Lemma gone_project_gives_failure_values_witness :
  remove_layer "roads" shut_down = (Ok false, shut_down)
  /\ get_layer_features "roads" (Some 2) shut_down = (Ok [], shut_down)
  /\ get_layer_attributes "roads" shut_down = (Ok [], shut_down)
  /\ filter_features Z.eqb "roads" "class" 1 shut_down = (Ok [], shut_down)
  /\ select_features "roads" [1] shut_down = (Ok false, shut_down)
  /\ clear_selection "roads" shut_down = (Ok false, shut_down)
  /\ get_layer_crs "roads" shut_down = (Ok None, shut_down)
  /\ export_vector_layer "roads" "/tmp/out.shp" "ESRI Shapefile" shut_down
     = (Ok false, shut_down)
  /\ (add_layer Vector "/data/roads.shp" None shut_down).1 = Ok None
  /\ project (add_layer Vector "/data/roads.shp" None shut_down).2 = None.
Proof.
  apply (gone_project_gives_failure_values Z.eqb shut_down Vector
           "/data/roads.shp" "roads" None (Some 2) "class" 1 [1]
           "/tmp/out.shp" "ESRI Shapefile").
  reflexivity.
Defined.

Lemma mutators_keep_project_consistent_witness :
  well_formed (remove_layer "roads" atlas).2
  /\ well_formed (select_features "roads" [1; 3] atlas).2
  /\ well_formed (clear_selection "roads" atlas).2
  /\ well_formed (add_layer Vector "/data/roads.shp" None atlas).2.
Proof.
  apply (mutators_keep_project_consistent atlas Vector "/data/roads.shp"
           "roads" None [1; 3]).
  exists [("L2", 0%nat); ("L1", 1%nat); ("L3", 2%nat)].
  split; [reflexivity|exact atlas_consistent].
Defined.

Lemma save_project_without_path_witness :
  save_project (Some "") desk = (Ok false, desk).
Proof.
  apply (save_project_without_path desk (Some "")).
  - right. reflexivity.
  - left. reflexivity.
Defined.

Lemma save_project_remembers_on_success_witness :
  save_project (Some "/projects/copy.qgs") desk
  = (Ok true,
     mkSession atlas (Some "/projects/copy.qgs") city_tree qgs_read qgs_write
               on_disk).
Proof.
  apply (save_project_remembers_on_success desk (Some "/projects/copy.qgs")
           "/projects/copy.qgs").
  - reflexivity.
  - discriminate.
  - eexists. reflexivity.
Defined.

Lemma load_project_remembers_path_witness :
  project_path (load_project "/projects/lost.qgs" desk).2
  = Some "/projects/lost.qgs"
  /\ ((load_project "/projects/lost.qgs" desk).1 = Ok true
      \/ (load_project "/projects/lost.qgs" desk).1 = Ok false)
  /\ ((load_project "/projects/lost.qgs" desk).1 = Ok true ->
      (read desk "/projects/lost.qgs" (world desk, layer_tree desk)).1 = Ok true).
Proof. exact (load_project_remembers_path desk "/projects/lost.qgs"). Defined.

Lemma save_after_load_uses_loaded_path_witness :
  save_project None (load_project "/readonly/city.qgs" desk).2
  = save_project (Some "/readonly/city.qgs")
      (load_project "/readonly/city.qgs" desk).2.
Proof.
  apply (save_after_load_uses_loaded_path desk "/readonly/city.qgs").
  discriminate.
Defined.

Lemma init_reads_existing_files_only_witness :
  __init__ (Some "/projects/lost.qgs") bare_desk
  = (Ok tt,
     mkSession registry (Some "/projects/lost.qgs") [] qgs_read qgs_write
               on_disk).
Proof.
  apply (init_reads_existing_files_only bare_desk (Some "/projects/lost.qgs")).
  reflexivity.
Defined.

Lemma set_layer_visibility_checks_node_witness :
  exists s' : @Session Z,
    set_layer_visibility "roads" false desk = (Ok true, s')
    /\ world s' = world desk
    /\ project_path s' = project_path desk
    /\ layer_tree s' !! 1%nat = Some ("L1", false)
    /\ (forall j, j <> 1%nat -> layer_tree s' !! j = layer_tree desk !! j)
    /\ map fst (layer_tree s') = map fst (layer_tree desk).
Proof.
  apply (set_layer_visibility_checks_node desk "roads" false 1%nat roads 1%nat);
    reflexivity.
Defined.

Lemma set_layer_visibility_rejects_witness :
  set_layer_visibility "roads" false bare_desk = (Ok false, bare_desk).
Proof.
  apply (set_layer_visibility_rejects bare_desk "roads" false (Some 0%nat)).
  - reflexivity.
  - exists roads. split; reflexivity.
Defined.

Lemma set_layer_visibility_last_wins_witness :
  s_bind (set_layer_visibility "relief" false)
    (fun _ => set_layer_visibility "relief" true) desk
  = set_layer_visibility "relief" true desk.
Proof.
  apply (set_layer_visibility_last_wins desk "relief" false true 0%nat relief
           0%nat); reflexivity.
Defined.
